(** * collect_image_listing.py: a shallow embedding and its properties

    The script scans the current folder for [Fotos_*.html] pages, parses
    each page with BeautifulSoup, classifies tables (big image blocks,
    ffn.gif contact sheets, stage headers, conservation status) and writes
    one spreadsheet.

    Modelling conventions.
    - A Python [str] is a [string]; each [ascii] stands for the code point
      of the same number, U+0000 to U+00FF.  The character classes below
      ([isspace], [\w], [\d], [lower]) are the ones Python has on that range.
    - A parsed page is a tree of [node]s, the result of BeautifulSoup's
      parser, which is an input of the model.
    - The file system, [glob], the console and the workbook writer are
      explicit: [main] takes an [env] and returns an [outcome], the run in
      which every call returns; [main_run] adds the runs that end in an
      exception and gives the sheet as the saved file holds it. *)

From Stdlib Require Import List String Ascii Bool Arith ZArith NArith Lia.
From Stdlib Require Import Numbers.DecimalString.
From Stdlib Require Import Sorting.Permutation Sorting.Sorted.
Import ListNotations.
Open Scope string_scope.
Open Scope list_scope.

(** ** Characters *)

Module Chr.

Definition code (c : ascii) : N := N_of_ascii c.

Definition between (lo hi : N) (c : ascii) : bool :=
  (lo <=? code c)%N && (code c <=? hi)%N.

(** [str.isspace] and the regular expression class [\s]. *)
Definition is_space (c : ascii) : bool :=
  between 9 13 c || between 28 32 c || (code c =? 133)%N || (code c =? 160)%N.

(** [\d]: decimal digits. *)
Definition is_digit (c : ascii) : bool := between 48 57 c.

Definition is_upper (c : ascii) : bool :=
  between 65 90 c || (between 192 222 c && negb (code c =? 215)%N).

(** Alphabetic or numeric characters, [str.isalnum]. *)
Definition is_alnum (c : ascii) : bool :=
  is_digit c || between 65 90 c || between 97 122 c
  || (code c =? 170)%N || (code c =? 178)%N || (code c =? 179)%N
  || (code c =? 181)%N || (code c =? 185)%N || (code c =? 186)%N
  || between 188 190 c
  || between 192 214 c || between 216 246 c || between 248 255 c.

(** [\w]: alphanumeric or underscore. *)
Definition is_word (c : ascii) : bool := is_alnum c || (code c =? 95)%N.

Definition lower (c : ascii) : ascii :=
  if is_upper c then ascii_of_N (code c + 32) else c.

(** U+00D7, the multiplication sign. *)
Definition times : ascii := ascii_of_N 215.

Definition digit_value (c : ascii) : Z := Z.of_N (code c) - 48.

End Chr.

(** ** Strings *)

Module Str.

Definition chars (s : string) : list ascii := list_ascii_of_string s.
Definition of_chars (l : list ascii) : string := string_of_list_ascii l.

(** Python truthiness of a [str]. *)
Definition truthy (s : string) : bool :=
  match s with EmptyString => false | String _ _ => true end.

Definition lower (s : string) : string := of_chars (map Chr.lower (chars s)).

Fixpoint lstrip_by (p : ascii -> bool) (l : list ascii) : list ascii :=
  match l with
  | c :: r => if p c then lstrip_by p r else l
  | [] => []
  end.

Definition rstrip_by (p : ascii -> bool) (l : list ascii) : list ascii :=
  rev (lstrip_by p (rev l)).

(** [s.strip()] *)
Definition strip (s : string) : string :=
  of_chars (rstrip_by Chr.is_space (lstrip_by Chr.is_space (chars s))).

(** [s.rstrip(c)] for a one-character argument. *)
Definition rstrip_char (c : ascii) (s : string) : string :=
  of_chars (rstrip_by (Ascii.eqb c) (chars s)).

Fixpoint starts (p l : list ascii) : bool :=
  match p, l with
  | [], _ => true
  | a :: p', b :: l' => Ascii.eqb a b && starts p' l'
  | _ :: _, [] => false
  end.

(** [s.startswith(p)] *)
Definition startswith (p s : string) : bool := starts (chars p) (chars s).

(** [s.endswith(p)] *)
Definition endswith (p s : string) : bool :=
  starts (rev (chars p)) (rev (chars s)).

Fixpoint contains_chars (p l : list ascii) : bool :=
  starts p l || match l with [] => false | _ :: r => contains_chars p r end.

(** [p in s] *)
Definition contains (p s : string) : bool := contains_chars (chars p) (chars s).

(** [re.sub(r"\s+", " ", text)]: every maximal run of white space becomes
    one space. *)
Fixpoint collapse_from (in_run : bool) (l : list ascii) : list ascii :=
  match l with
  | [] => []
  | c :: r =>
      if Chr.is_space c
      then if in_run then collapse_from true r
           else " "%char :: collapse_from true r
      else c :: collapse_from false r
  end.

Definition collapse_ws (l : list ascii) : list ascii := collapse_from false l.

(** [sep.join(parts)] *)
Fixpoint join (sep : string) (parts : list string) : string :=
  match parts with
  | [] => ""
  | [s] => s
  | s :: r => s ++ sep ++ join sep r
  end.

(** Text after the first occurrence of [p], as in [s.split(p, 1)[1]];
    [None] when [p] does not occur. *)
Fixpoint after_first (p l : list ascii) : option (list ascii) :=
  if starts p l then Some (skipn (List.length p) l)
  else match l with [] => None | _ :: r => after_first p r end.

(** Text after the last occurrence of character [c], the whole text when
    there is none. *)
Definition after_last (c : ascii) (l : list ascii) : list ascii :=
  rev ((fix upto (r : list ascii) : list ascii :=
          match r with
          | [] => []
          | a :: r' => if Ascii.eqb a c then [] else a :: upto r'
          end) (rev l)).

Fixpoint leb (a b : list ascii) : bool :=
  match a, b with
  | [], _ => true
  | _ :: _, [] => false
  | x :: a', y :: b' =>
      (Chr.code x <? Chr.code y)%N || (Ascii.eqb x y && leb a' b')
  end.

Fixpoint insert_sorted (s : string) (l : list string) : list string :=
  match l with
  | [] => [s]
  | t :: r => if leb (chars s) (chars t) then s :: l else t :: insert_sorted s r
  end.

(** [sorted(l)] on a list of [str]. *)
Definition sorted (l : list string) : list string :=
  fold_right insert_sorted [] l.

Definition of_nat (n : nat) : string := NilEmpty.string_of_uint (Nat.to_uint n).

End Str.

(** ** [int(str)] *)

Module PyInt.

(** The white space that [int] skips at both ends of its argument: the
    white space of C's [isspace], and the white-space characters from
    U+007F on, which [int] first turns into spaces.  U+001C to U+001F are
    white space for [str.strip] but not here: [int] refuses them. *)
Definition is_space (c : ascii) : bool :=
  Chr.between 9 13 c || (Chr.code c =? 32)%N
  || (Chr.code c =? 133)%N || (Chr.code c =? 160)%N.

Definition strip (l : list ascii) : list ascii :=
  Str.rstrip_by is_space (Str.lstrip_by is_space l).

(** Digits with single underscores between them. *)
Fixpoint digits (acc : Z) (after_digit : bool) (l : list ascii) : option Z :=
  match l with
  | [] => if after_digit then Some acc else None
  | c :: r =>
      if Chr.is_digit c then digits (10 * acc + Chr.digit_value c) true r
      else if Ascii.eqb c "_" && after_digit then digits acc false r
      else None
  end.

(** The limit on the number of digits, [sys.get_int_max_str_digits()] left
    at its default. *)
Definition max_str_digits : Z := 4300.

(** An unsigned literal; more than [max_str_digits] digits are refused. *)
Definition literal (l : list ascii) : option Z :=
  if (max_str_digits <? Z.of_nat (List.length (filter Chr.is_digit l)))%Z
  then None
  else digits 0 false l.

(** [int(s)]; [None] stands for [ValueError]. *)
Definition int (s : string) : option Z :=
  match strip (Str.chars s) with
  | "-"%char :: r => option_map Z.opp (literal r)
  | "+"%char :: r => literal r
  | l => literal l
  end.

End PyInt.

(** ** Regular expressions

    The fragment of [re] syntax that the patterns of the script use, all
    compiled with [re.IGNORECASE].  [search] decides whether some match
    exists, which is all the script asks of a pattern. *)

Module Re.

Inductive atom : Type :=
| AChr (c : ascii)   (* a literal character, compared without case *)
| ASpace             (* \s *)
| AWord.             (* \w *)

Inductive re : Type :=
| Eps
| Cls (l : list atom)     (* one character: a literal or a class [...] *)
| Bound                   (* \b *)
| Cat (r1 r2 : re)
| Alt (r1 r2 : re)        (* (?:r1|r2) *)
| Opt (r : re)            (* r? *)
| Many (l : list atom).   (* [...]* *)

Definition atom_ok (c : ascii) (a : atom) : bool :=
  match a with
  | AChr x => Ascii.eqb (Chr.lower c) (Chr.lower x)
  | ASpace => Chr.is_space c
  | AWord => Chr.is_word c
  end.

Definition in_set (l : list atom) (c : ascii) : bool := existsb (atom_ok c) l.

(** The literal text [s]. *)
Definition lit (s : string) : re :=
  fold_right (fun c r => Cat (Cls [AChr c]) r) Eps (Str.chars s).

Definition cat (l : list re) : re := fold_right Cat Eps l.

Section Matching.

Variable s : list ascii.

Definition word_at (i : nat) : bool :=
  match nth_error s i with Some c => Chr.is_word c | None => false end.

(** [\b] holds at [i] when exactly one of the characters before and at
    [i] is a word character; outside the text counts as a non-word. *)
Definition boundary (i : nat) : bool :=
  xorb (match i with O => false | S j => word_at j end) (word_at i).

Fixpoint many_ends (l : list atom) (fuel i : nat) : list nat :=
  i :: match fuel with
       | O => []
       | S fuel' =>
           match nth_error s i with
           | Some c => if in_set l c then many_ends l fuel' (S i) else []
           | None => []
           end
       end.

(** All positions where a match of [r] that starts at [i] can end. *)
Fixpoint ends (r : re) (i : nat) : list nat :=
  match r with
  | Eps => [i]
  | Cls l =>
      match nth_error s i with
      | Some c => if in_set l c then [S i] else []
      | None => []
      end
  | Bound => if boundary i then [i] else []
  | Cat r1 r2 => flat_map (ends r2) (ends r1 i)
  | Alt r1 r2 => ends r1 i ++ ends r2 i
  | Opt r1 => i :: ends r1 i
  | Many l => many_ends l (List.length s) i
  end.

Definition matches_at (r : re) (i : nat) : bool :=
  match ends r i with [] => false | _ :: _ => true end.

End Matching.

(** [pat.search(text)] as a truth value. *)
Definition search (r : re) (text : string) : bool :=
  let s := Str.chars text in
  existsb (matches_at s r) (seq 0 (S (List.length s))).

End Re.

(** ** Constants of the script *)

Import Re.

Definition CATEGORY_LABELS : list string :=
  [ "Near-threatened"; "Vulnerable"; "Endangered"; "Critically Endangered" ].

Definition STAGE_KEYWORDS : list string :=
  [ "male"; "female"; "chicks"; "juvenile"; "immature"; "immatures";
    "subadult"; "sub-adult"; "nest"; "nymph"; "egg"; "eggs"; "adult";
    "macho"; "hembra"; "pichon"; "pichones"; "juvenil"; "inmaduro";
    "inmaduros"; "subadulto"; "nido"; "ninfa"; "huevo"; "huevos"; "adulto";
    "adultos" ].

(** [[\s\-]*] *)
Definition gap : re := Many [ASpace; AChr "-"].

(** [(?:ed|d)] *)
Definition ed_or_d : re := Alt (lit "ed") (lit "d").

(** The dictionary, in insertion order: [_match_threat_in_text] and
    [find_threat_status] iterate over [THREAT_VARIANTS.items()]. *)
Definition THREAT_VARIANTS : list (string * list re) :=
  [ ("Near-threatened",
      [ cat [Bound; lit "near"; gap; lit "threaten";
             Alt (lit "ed") (lit "ned"); Bound];
        cat [Bound; lit "nearth"; gap; lit "threat";
             Alt (Cat (lit "en") (Opt (lit "ed")))
                 (Alt (lit "ed") (lit "ned")); Bound];
        cat [Bound; lit "near"; gap; lit "threated"; Bound];
        cat [Bound; lit "near"; gap; lit "threat"; Many [AWord]; Bound];
        cat [Bound; lit "casi"; gap; lit "amenazad";
             Cls [AChr "a"; AChr "o"]; Opt (lit "s"); Bound] ]);
    ("Vulnerable",
      [ cat [Bound; lit "vulnerabl"; Alt (lit "e") (lit "e"); Bound];
        cat [Bound; lit "vulnerable"; Bound] ]);
    ("Endangered",
      [ cat [Bound; lit "endanger"; ed_or_d; Bound];
        cat [Bound; lit "endangered"; Bound];
        cat [Bound; lit "en"; gap; lit "peligro"; Bound] ]);
    ("Critically Endangered",
      [ cat [Bound; lit "critical"; Opt (lit "ly"); gap; lit "endanger";
             ed_or_d; Bound];
        cat [Bound; lit "critically"; gap; lit "endangered"; Bound];
        cat [Bound; lit "cirtical"; Opt (lit "ly"); gap; lit "endager";
             ed_or_d; Bound];
        cat [Bound; lit "cirtically"; gap; lit "endagered"; Bound];
        cat [Bound; lit "en"; gap; lit "peligro"; gap; lit "critico";
             Bound] ]) ].

(** ** Text helpers *)

Definition compact_text (text : string) : string :=
  if negb (Str.truthy text) then ""
  else Str.strip (Str.of_chars (Str.collapse_ws (Str.chars text))).

(** [value] is [None] for Python's [None]. *)
Definition endswith_jpg (value : option string) : bool :=
  match value with
  | Some v => Str.truthy v && Str.endswith ".jpg" v
  | None => false
  end.

(** First canonical label, in dictionary order, one of whose patterns
    matches; [""] when none does. *)
Fixpoint first_label (keep : re -> re) (text : string)
    (variants : list (string * list re)) : string :=
  match variants with
  | [] => ""
  | (canonical, patterns) :: rest =>
      if existsb (fun pat => search (keep pat) text) patterns then canonical
      else first_label keep text rest
  end.

Definition _match_threat_in_text (text : string) : string :=
  first_label (fun pat => pat) text THREAT_VARIANTS.

(** ** The parsed page *)

#[local] Set Warnings "-register-all".

(** A node of the BeautifulSoup tree.  [Comment] stands for every string
    kind that [get_text] leaves out. *)
Inductive node : Type :=
| Tag (name : string) (attrs : list (string * string)) (children : list node)
| NavigableString (s : string)
| Comment (s : string).

(** A node with its siblings: [before] is [previous_siblings] (nearest
    first), [after] is [next_siblings]. *)
Record loc : Type := Loc { before : list node; self : node; after : list node }.

Module Soup.

Fixpoint lookup (key : string) (d : list (string * string)) : option string :=
  match d with
  | [] => None
  | (k, v) :: r => if String.eqb k key then Some v else lookup key r
  end.

(** [isinstance(n, Tag) and n.name == name] *)
Definition is_tag (name : string) (n : node) : bool :=
  match n with Tag nm _ _ => String.eqb nm name | _ => false end.

(** [tag.get(key)] *)
Definition get (n : node) (key : string) : option string :=
  match n with Tag _ a _ => lookup key a | _ => None end.

(** [tag.get(key, default)] *)
Definition get_or (n : node) (key default : string) : string :=
  match get n key with Some v => v | None => default end.

(** Every descendant in document order, each with its siblings. *)
Fixpoint located (n : node) : list loc :=
  match n with
  | Tag _ _ cs =>
      (fix walk (prev l : list node) {struct l} : list loc :=
         match l with
         | [] => []
         | c :: rest => Loc prev c rest :: located c ++ walk (c :: prev) rest
         end) [] cs
  | _ => []
  end.

(** [tag.descendants] *)
Definition descendants (n : node) : list node := map self (located n).

(** [tag.find_all(name)] with an optional test on the tag. *)
Definition find_all (n : node) (name : string) (ok : node -> bool) : list node :=
  filter (fun d => is_tag name d && ok d) (descendants n).

(** [soup.find_all(name)], keeping the siblings of every hit. *)
Definition find_all_located (n : node) (name : string) : list loc :=
  filter (fun l => is_tag name (self l)) (located n).

(** [tag.find(name, ...)] *)
Definition find (n : node) (name : string) (ok : node -> bool) : option node :=
  hd_error (find_all n name ok).

Definition any (_ : node) : bool := true.

(** [tag.get(key) == v] *)
Definition attr_is (n : node) (key v : string) : bool :=
  match get n key with Some x => String.eqb x v | None => false end.

(** [attr=True]: the attribute is present. *)
Definition has_attr (key : string) (n : node) : bool :=
  match get n key with Some _ => true | None => false end.

(** [tag.get_text(" ", strip=True)]: the stripped, non-empty strings below
    the tag, joined by one space. *)
Definition strings (n : node) : list string :=
  flat_map (fun d => match d with NavigableString s => [s] | _ => [] end)
           (descendants n).

Definition get_text (n : node) : string :=
  Str.join " " (filter Str.truthy (map Str.strip (strings n))).

End Soup.

Import Soup.

(** The text of a node as the script reads it everywhere:
    [compact_text(n.get_text(" ", strip=True))]. *)
Definition text_of (n : node) : string := compact_text (get_text n).

(** ** Table heuristics *)

Definition _looks_like_stage_table (tbl : node) : bool :=
  if negb (is_tag "table" tbl) then false
  else
    let t := text_of tbl in
    let t_lower := Str.lower t in
    if negb (existsb (fun kw => Str.contains kw t_lower) STAGE_KEYWORDS)
    then false
    else if existsb Chr.is_digit (Str.chars t) then false
    else if (120 <? String.length t)%nat then false
    else true.

(** [int(s)] with [ValueError] replaced by [default]. *)
Definition int_or (default : Z) (s : string) : Z :=
  match PyInt.int s with Some v => v | None => default end.

Definition is_big_image_table (tbl : node) : bool :=
  if negb (is_tag "table" tbl) then false
  else if negb (attr_is tbl "width" "800") then false
  else
    let border_val := int_or 0 (get_or tbl "border" "0") in
    if (border_val <? 6)%Z then false
    else
      match find tbl "img" (fun i => endswith_jpg (get i "src")) with
      | Some _ => true
      | None => false
      end.

(** The loop of [find_stage_tag_near_table] over [previous_siblings];
    [count] is the number of tables examined so far. *)
Fixpoint stage_lookback (sibs : list node) (count max_lookback_tables : Z)
    : string :=
  match sibs with
  | [] => ""
  | sib :: rest =>
      if negb (is_tag "table" sib)
      then stage_lookback rest count max_lookback_tables
      else if is_big_image_table sib then ""
      else
        let count := (count + 1)%Z in
        if _looks_like_stage_table sib then text_of sib
        else if (max_lookback_tables <=? count)%Z then ""
        else stage_lookback rest count max_lookback_tables
  end.

Definition find_stage_tag_near_table (start_tbl : loc)
    (max_lookback_tables : Z) : string :=
  stage_lookback (before start_tbl) 0 max_lookback_tables.

(** The loop of [find_following_800_text_tables] over [next_siblings]. *)
Fixpoint following_loop (sibs : list node) (results : list string)
    (max_tables : Z) : list string :=
  match sibs with
  | [] => results
  | sib :: rest =>
      if negb (is_tag "table" sib) then following_loop rest results max_tables
      else
        let hit := attr_is sib "width" "800" && attr_is sib "border" "1" in
        let results := if hit then results ++ [text_of sib] else results in
        if hit && (max_tables <=? Z.of_nat (List.length results))%Z
        then results
        else if is_big_image_table sib then results
        else following_loop rest results max_tables
  end.

Definition find_following_800_text_tables (start_tbl : loc) (max_tables : Z)
    : list string :=
  following_loop (after start_tbl) [] max_tables.

(** [(thumbnail_src, large_href)]; [None] is Python's [None]. *)
Definition extract_first_img_and_anchor (table : node)
    : option string * option string :=
  let fallback :=
    match find table "img" (has_attr "src") with
    | Some img_tag =>
        if endswith_jpg (get img_tag "src") then (get img_tag "src", None)
        else (None, None)
    | None => (None, None)
    end in
  match find table "a" (has_attr "href") with
  | Some a_tag =>
      match find a_tag "img" (has_attr "src") with
      | Some img_tag =>
          if endswith_jpg (get img_tag "src")
          then (get img_tag "src",
                if endswith_jpg (get a_tag "href") then get a_tag "href"
                else None)
          else fallback
      | None => fallback
      end
  | None => fallback
  end.

(** ** Rows: Python dictionaries with string keys *)

Definition dict : Type := list (string * string).

(** [d.get(key)] *)
Definition dict_get (d : dict) (key : string) : option string := lookup key d.

(** [d.get(key, "")] *)
Definition dict_get_or_empty (d : dict) (key : string) : string :=
  match dict_get d key with Some v => v | None => "" end.

(** [d[key] = v] *)
Fixpoint dict_set (d : dict) (key v : string) : dict :=
  match d with
  | [] => [(key, v)]
  | (k, x) :: r =>
      if String.eqb k key then (k, v) :: r else (k, x) :: dict_set r key v
  end.

(** [x or ""] *)
Definition or_empty (x : option string) : string :=
  match x with Some v => v | None => "" end.

(** [not thumb] for an optional string. *)
Definition falsy (x : option string) : bool :=
  match x with Some v => negb (Str.truthy v) | None => true end.

(** The dictionary that both parsers append to [rows]. *)
Definition row (is_small thumb large camera location sex_age : string) : dict :=
  [ ("Is_Small_ffn_gif", is_small);
    ("Thumbnail_File", thumb);
    ("Large_File", large);
    ("Camera_Equipment", camera);
    ("Location_Date", location);
    ("Sex_Age", sex_age) ].

Definition parse_big_blocks (soup : node) : list dict :=
  flat_map
    (fun tbl =>
       if negb (is_big_image_table (self tbl)) then []
       else
         let '(thumb, large) := extract_first_img_and_anchor (self tbl) in
         if falsy thumb then []
         else
           let follow_texts := find_following_800_text_tables tbl 2 in
           let camera := nth 0 follow_texts "" in
           let location := nth 1 follow_texts "" in
           let stage_label := find_stage_tag_near_table tbl 3 in
           [ row "" (or_empty thumb) (or_empty large) camera location
               stage_label ])
    (find_all_located soup "table").

(** [td.get("background") and "ffn.gif" in td.get("background")] *)
Definition has_ffn_background (td : node) : bool :=
  match get td "background" with
  | Some bg => Str.truthy bg && Str.contains "ffn.gif" bg
  | None => false
  end.

(** The [colspan] of a cell as the script reads it: 1 when the attribute
    is missing, empty or not an integer. *)
Definition colspan_of (td : node) : Z :=
  match get td "colspan" with
  | Some colspan_val =>
      if Str.truthy colspan_val then int_or 1 colspan_val else 1%Z
  | None => 1%Z
  end.

(** [max(1, colspan)] *)
Definition span (td : node) : nat := Z.to_nat (Z.max 1 (colspan_of td)).

(** The column texts of a row, when the repetitions succeed;
    [expanded_texts_raises] below tells when one does not. *)
Definition expanded_texts (tds : list node) : list string :=
  flat_map (fun td => repeat (text_of td) (span td)) tds.

(** The stacked text of two rows, column by column. *)
Definition combine_texts (last_text_by_column expanded : list string)
    : list string :=
  map (fun pc : string * string =>
         let (prev, cur) := pc in
         if Str.truthy prev && Str.truthy cur then (prev ++ " " ++ cur)%string
         else if Str.truthy prev then prev else cur)
      (combine last_text_by_column expanded).

(** A row without ffn.gif cells updates [last_text_by_column]. *)
Definition text_row_update (last_text_by_column expanded : list string)
    : list string :=
  if existsb Str.truthy expanded then
    match last_text_by_column with
    | _ :: _ =>
        if (List.length last_text_by_column =? List.length expanded)%nat
        then combine_texts last_text_by_column expanded
        else expanded
    | [] => expanded
    end
  else [].

(** The cells of a row that has ffn.gif cells; [col_index_pointer] is the
    column of the first cell of [tds]. *)
Fixpoint ffn_row_cells (tds : list node) (col_index_pointer : nat)
    (last_text_by_column : list string) (stage_label_for_table : string)
    : list dict :=
  match tds with
  | [] => []
  | td :: rest =>
      let bg := get_or td "background" "" in
      let here :=
        if Str.contains "ffn.gif" bg then
          let a_tag := find td "a" (has_attr "href") in
          let img_tag := find td "img" (has_attr "src") in
          let thumb :=
            match img_tag with
            | Some i => if endswith_jpg (get i "src") then get i "src" else None
            | None => None
            end in
          let large :=
            match a_tag with
            | Some a => if endswith_jpg (get a "href") then get a "href" else None
            | None => None
            end in
          if falsy thumb then []
          else
            let per_cell_text := nth col_index_pointer last_text_by_column "" in
            [ row "Y" (or_empty thumb) (or_empty large) "" per_cell_text
                stage_label_for_table ]
        else [] in
      here ++ ffn_row_cells rest (col_index_pointer + span td)
                last_text_by_column stage_label_for_table
  end.

(** The loop over the [tr]s of one table, threading [last_text_by_column]. *)
Fixpoint ffn_table_rows (trs : list node) (last_text_by_column : list string)
    (stage_label_for_table : string) : list dict :=
  match trs with
  | [] => []
  | tr :: rest =>
      let tds := find_all tr "td" any in
      let has_ffn := existsb has_ffn_background tds in
      let expanded := expanded_texts tds in
      if negb has_ffn
      then ffn_table_rows rest (text_row_update last_text_by_column expanded)
             stage_label_for_table
      else ffn_row_cells tds 0 last_text_by_column stage_label_for_table
             ++ ffn_table_rows rest last_text_by_column stage_label_for_table
  end.

Definition parse_small_ffn_tables (soup : node) : list dict :=
  flat_map
    (fun tbl =>
       match find_all (self tbl) "td" has_ffn_background with
       | [] => []
       | _ :: _ =>
           ffn_table_rows (find_all (self tbl) "tr" any) []
             (find_stage_tag_near_table tbl 3)
       end)
    (find_all_located soup "table").

(** ** Conservation status *)

(** Python's [for x in xs: ... return] loops: the first iteration that
    returns decides. *)
Fixpoint first_some {A B : Type} (f : A -> option B) (l : list A) : option B :=
  match l with
  | [] => None
  | x :: r => match f x with Some y => Some y | None => first_some f r end
  end.

(** A label when it is truthy, as in [if label: return label]. *)
Definition returned (label : string) : option string :=
  if Str.truthy label then Some label else None.

Definition is_marker (td : node) : bool :=
  let td_text := Str.lower (text_of td) in
  String.eqb td_text "x" || String.eqb td_text (String Chr.times "").

Definition status_in_row (tr : node) : option string :=
  let tds := find_all tr "td" any in
  match tds with
  | [] => None
  | _ :: _ =>
      if negb (existsb is_marker tds) then None
      else
        let right_text := text_of (last tds (Comment "")) in
        match returned (_match_threat_in_text right_text) with
        | Some label => Some label
        | None => returned (_match_threat_in_text (text_of tr))
        end
  end.

Definition _find_status_in_table (table : node) : string :=
  if negb (is_tag "table" table) then ""
  else or_empty (first_some status_in_row (find_all table "tr" any)).

(** [\s*[:\-]?\s*[xX×]], the suffix that [find_threat_status] appends to
    every pattern. *)
Definition marked : re :=
  cat [ Many [ASpace]; Opt (Cls [AChr ":"; AChr "-"]); Many [ASpace];
        Cls [AChr "x"; AChr "X"; AChr Chr.times] ].

(** The loop over [table.next_siblings]; [sib_count] tables seen so far. *)
Fixpoint status_in_next_siblings (sibs : list node) (sib_count : Z)
    : option string :=
  match sibs with
  | [] => None
  | sib :: rest =>
      if negb (is_tag "table" sib) then status_in_next_siblings rest sib_count
      else
        let sib_count := (sib_count + 1)%Z in
        match returned (_find_status_in_table sib) with
        | Some status => Some status
        | None =>
            if (4 <=? sib_count)%Z then None
            else status_in_next_siblings rest sib_count
        end
  end.

(** One iteration of the first loop of [find_threat_status]. *)
Definition status_near_header (table : loc) : option string :=
  let table_text_original := get_text (self table) in
  let table_text := Str.lower (compact_text table_text_original) in
  if Str.contains "globally threatened species" table_text then
    match returned (_find_status_in_table (self table)) with
    | Some direct => Some direct
    | None =>
        match status_in_next_siblings (after table) 0 with
        | Some status => Some status
        | None =>
            returned (first_label (fun pat => Cat pat marked)
                        table_text_original THREAT_VARIANTS)
        end
    end
  else None.

Definition find_threat_status (soup : node) : string :=
  let tables := find_all_located soup "table" in
  match first_some status_near_header tables with
  | Some status => status
  | None =>
      or_empty
        (first_some (fun table => returned (_find_status_in_table (self table)))
           tables)
  end.

(** ** The world around the script *)

Inductive encoding : Type := Utf8 | Latin1.

(** What [open(path, "r", encoding=...)] followed by [f.read()] does. *)
Inductive read_result : Type :=
| ReadOk (text : string)
| UnicodeDecodeError (e : string)
| OtherException (e : string).

Record env : Type := Env {
  getcwd : string;                                  (* os.getcwd() *)
  glob : string -> list string;                     (* glob.glob(pattern) *)
  isfile : string -> bool;                          (* os.path.isfile(f) *)
  open_read : string -> encoding -> read_result;
  BeautifulSoup : string -> node                    (* BeautifulSoup(html, "lxml") *)
}.

(** A worksheet: the value of the cell at a row and a column, both counted
    from 1; [None] is an empty cell. *)
Definition worksheet : Type := nat -> nat -> option string.

Record outcome : Type := Outcome {
  exit_code : Z;
  printed : list string;
  written : list (string * worksheet)     (* workbooks saved: path, sheet "Images" *)
}.

(** ** Paths (POSIX) *)

Module Path.

Definition sep : ascii := "/".

(** [os.path.basename(p)] *)
Definition basename (p : string) : string :=
  Str.of_chars (Str.after_last sep (Str.chars p)).

(** [os.path.join(a, b)] *)
Definition join (a b : string) : string :=
  if Str.startswith "/" b then b
  else if negb (Str.truthy a) || Str.endswith "/" a then (a ++ b)%string
  else (a ++ "/" ++ b)%string.

(** Splits the reversed text at its first dot: extension and root, both
    reversed. *)
Fixpoint split_at_dot (r ext : list ascii) : option (list ascii * list ascii) :=
  match r with
  | [] => None
  | c :: r' =>
      if Ascii.eqb c "." then Some (ext, r') else split_at_dot r' (c :: ext)
  end.

(** [os.path.splitext(filename)[0]] for a name without separators: the
    text before the last dot, unless only dots come before it. *)
Definition splitext_root (filename : string) : string :=
  let l := Str.chars filename in
  match split_at_dot (rev l) [] with
  | Some (_, root_rev) =>
      if existsb (fun c => negb (Ascii.eqb c ".")) root_rev
      then Str.of_chars (rev root_rev)
      else filename
  | None => filename
  end.

End Path.

(** ** Reading and parsing one file *)

Definition error_reading (path e : string) : string :=
  ("Error reading " ++ path ++ ": " ++ e)%string.

(** The result and the lines printed. *)
Definition read_html_file (w : env) (path : string)
    : option string * list string :=
  match open_read w path Utf8 with
  | ReadOk text => (Some text, [])
  | UnicodeDecodeError _ =>
      match open_read w path Latin1 with
      | ReadOk text => (Some text, [])
      | UnicodeDecodeError e | OtherException e =>
          (None, [error_reading path e])
      end
  | OtherException e => (None, [error_reading path e])
  end.

Definition get_current_folder_name (w : env) : string :=
  let name := Path.basename (Str.rstrip_char Path.sep (getcwd w)) in
  if Str.truthy name then name else "Image_Listing".

(** The rows of a parsed page, with the threat status attached. *)
Definition rows_of_soup (soup : node) : list dict :=
  let threat := find_threat_status soup in
  let rows_big := parse_big_blocks soup in
  let rows_small := parse_small_ffn_tables soup in
  let all_rows := rows_big ++ rows_small in
  map (fun r => dict_set r "Threat_Status" threat) all_rows.

Definition parse_file (w : env) (path : string) : list dict * list string :=
  match read_html_file w path with
  | (None, out) => ([], out)
  | (Some html, out) => (rows_of_soup (BeautifulSoup w html), out)
  end.

(** ** [main] *)

Definition COLUMNS : list string :=
  [ "Species_ID"; "Slug"; "Subspecies_ID"; "Slide"; "Cover";
    "Thumbnail_Filename"; "Large_Filename"; "Equipment"; "Sex_Age";
    "Location"; "Province"; "Country"; "Date"; "Location_Date";
    "Threat_Status" ].

Definition r_out (species : string) (r : dict) : dict :=
  [ ("Species_ID", "");
    ("Slug", species);
    ("Subspecies_ID", "");
    ("Slide", dict_get_or_empty r "Is_Small_ffn_gif");
    ("Cover", "");
    ("Thumbnail_Filename", dict_get_or_empty r "Thumbnail_File");
    ("Large_Filename", dict_get_or_empty r "Large_File");
    ("Equipment", dict_get_or_empty r "Camera_Equipment");
    ("Sex_Age", dict_get_or_empty r "Sex_Age");
    ("Location", "");
    ("Province", "");
    ("Country", "");
    ("Date", "");
    ("Location_Date", dict_get_or_empty r "Location_Date");
    ("Threat_Status", dict_get_or_empty r "Threat_Status") ].

(** The inner loop of [main]: the records of one file's rows. *)
Definition records_of_rows (species : string) (rows : list dict) : list dict :=
  flat_map
    (fun r =>
       if negb (endswith_jpg (dict_get r "Thumbnail_File")) then []
       else [r_out species r])
    rows.

(** One iteration of the outer loop of [main]: the records added and the
    lines printed. *)
Definition process_file (w : env) (path : string) : list dict * list string :=
  let filename := Path.basename path in
  let base := Path.splitext_root filename in
  if negb (Str.startswith "Fotos_" base) then ([], [])
  else
    let species :=
      match Str.after_first (Str.chars "Fotos_") (Str.chars base) with
      | Some rest => Str.of_chars rest
      | None => ""
      end in
    let '(rows, out) := parse_file w path in
    (records_of_rows species rows,
     ("Processing " ++ filename ++ " (species: " ++ species ++ ") ...")%string
       :: out).

Fixpoint process_files (w : env) (paths : list string)
    : list dict * list string :=
  match paths with
  | [] => ([], [])
  | path :: rest =>
      let '(recs, out) := process_file w path in
      let '(recs', out') := process_files w rest in
      (recs ++ recs', out ++ out')
  end.

(** The values that [df.to_excel(writer, index=False, startrow=0)] hands to
    the sheet: the column names in row 1, record [i] (from 0) in row
    [i + 2].  [to_excel_raises] and [to_excel_saved] below tell when the
    call raises and what the saved file keeps of each value. *)
Definition to_excel (columns : list string) (records : list dict) : worksheet :=
  fun row col =>
    match row, col with
    | O, _ | _, O => None
    | S O, S j => nth_error columns j
    | S (S i), S j =>
        match nth_error records i, nth_error columns j with
        | Some r, Some c => Some (dict_get_or_empty r c)
        | _, _ => None
        end
    end.

(** openpyxl's [worksheet.insert_cols(idx)]: one empty column before
    column [idx]. *)
Definition insert_cols (idx : nat) (ws : worksheet) : worksheet :=
  fun row col =>
    if (col <? idx)%nat then ws row col
    else if (col =? idx)%nat then None
    else ws row (col - 1)%nat.

(** openpyxl's [worksheet.insert_rows(idx)]: one empty row before row
    [idx]. *)
Definition insert_rows (idx : nat) (ws : worksheet) : worksheet :=
  fun row col =>
    if (row <? idx)%nat then ws row col
    else if (row =? idx)%nat then None
    else ws (row - 1)%nat col.

(** [[f for f in glob.glob(pattern) if os.path.isfile(f)]] *)
Definition input_files (w : env) : list string :=
  let pattern := Path.join (getcwd w) "Fotos_*.html" in
  filter (isfile w) (glob w pattern).

(** What a run prints, saves and returns when every call returns, the
    sheet with the values as the script hands them over; [main_run] below
    adds the runs that an exception ends and what the saved file keeps of
    each value. *)
Definition main (w : env) : outcome :=
  let cwd := getcwd w in
  let folder_name := get_current_folder_name w in
  let files := input_files w in
  match files with
  | [] =>
      Outcome 0
        ["No matching HTML files (Fotos_*.html) found in current folder."] []
  | _ :: _ =>
      let found :=
        ("Found " ++ Str.of_nat (List.length files)
           ++ " file(s) to process.")%string in
      let '(records, out) := process_files w (Str.sorted files) in
      match records with
      | [] => Outcome 0 ((found :: out) ++ ["No image records found."]) []
      | _ :: _ =>
          let out_name := (folder_name ++ "_Image_Listing.xlsx")%string in
          let out_path := Path.join cwd out_name in
          let worksheet :=
            insert_rows 1 (insert_cols 1 (to_excel COLUMNS records)) in
          Outcome 0
            ((found :: out)
               ++ [ ("Wrote " ++ Str.of_nat (List.length records)
                       ++ " rows to " ++ out_path)%string;
                    "Excel structure: Row 1 (empty), Row 2 (headers), Row 3+ (data)" ])
            [(out_path, worksheet)]
      end
  end.

(** ** Runs that end in an exception

    The definitions above give what each function of the script returns,
    and [main] what a run prints and saves when every call returns.  Three
    calls can also raise an exception that nothing catches: the repetition
    [[cell_text] * max(1, colspan)] in [parse_small_ffn_tables], the
    opening and saving of the workbook, and [df.to_excel].  [main_run] is
    the run with these ends, on a 64-bit interpreter; it also gives the
    sheet as the saved file holds it. *)

Inductive exception : Type :=
| OverflowError           (* a repetition count beyond sys.maxsize *)
| MemoryError             (* a list that cannot be allocated *)
| ValueError              (* to_excel: more rows than a sheet has *)
| IllegalCharacterError   (* openpyxl: a control character in a cell *)
| OSError.                (* the workbook cannot be opened or saved *)

(** What opening the workbook for writing and saving it do. *)
Inductive writer_result : Type := WriterOk | OpenFails | SaveFails.

(** The machine of a run: the longest list it can allocate, and the fate of
    the workbook at a path. *)
Record host : Type := Host {
  list_capacity : Z;
  writer : string -> writer_result
}.

(** [sys.maxsize] *)
Definition sys_maxsize : Z := 2 ^ 63 - 1.

(** No list has more than [sys.maxsize // 8] items, whatever the machine. *)
Definition capacity (h : host) : Z := Z.min (list_capacity h) (sys_maxsize / 8).

(** [expanded_texts.extend([cell_text] * n)] on a list of [have] items. *)
Definition extend_raises (h : host) (have n : Z) : option exception :=
  if (sys_maxsize <? n)%Z then Some OverflowError
  else if (capacity h <? have + n)%Z then Some MemoryError
  else None.

(** The loop that builds [expanded_texts], [have] items long so far. *)
Fixpoint expanded_texts_raises (h : host) (tds : list node) (have : Z)
    : option exception :=
  match tds with
  | [] => None
  | td :: rest =>
      let n := Z.max 1 (colspan_of td) in
      match extend_raises h have n with
      | Some e => Some e
      | None => expanded_texts_raises h rest (have + n)
      end
  end.

(** The exception that ends [parse_small_ffn_tables], if any: the first
    row, in a table with ffn.gif cells, whose texts cannot be expanded. *)
Definition parse_small_ffn_tables_raises (h : host) (soup : node)
    : option exception :=
  first_some
    (fun tbl =>
       match find_all (self tbl) "td" has_ffn_background with
       | [] => None
       | _ :: _ =>
           first_some
             (fun tr => expanded_texts_raises h (find_all tr "td" any) 0)
             (find_all (self tbl) "tr" any)
       end)
    (find_all_located soup "table").

(** The exception that ends [parse_file]: a file that cannot be read
    raises nothing. *)
Definition parse_file_raises (h : host) (w : env) (path : string)
    : option exception :=
  match read_html_file w path with
  | (Some html, _) => parse_small_ffn_tables_raises h (BeautifulSoup w html)
  | (None, _) => None
  end.

(** The loop of [main] over the files: the records, the lines printed, and
    the exception that ends the loop, if any.  An exception comes after the
    lines of its file are printed, and leaves no records. *)
Fixpoint process_files_run (h : host) (w : env) (paths : list string)
    : list dict * list string * option exception :=
  match paths with
  | [] => ([], [], None)
  | path :: rest =>
      let '(recs, out) := process_file w path in
      let raised :=
        if Str.startswith "Fotos_" (Path.splitext_root (Path.basename path))
        then parse_file_raises h w path
        else None in
      match raised with
      | Some e => ([], out, Some e)
      | None =>
          let '(recs', out', e) := process_files_run h w rest in
          (recs ++ recs', out ++ out', e)
      end
  end.

(** The rows that a sheet has. *)
Definition max_rows : Z := 1048576.

(** The characters that openpyxl refuses in a cell. *)
Definition illegal_character (c : ascii) : bool :=
  Chr.between 0 8 c || Chr.between 11 12 c || Chr.between 14 31 c.

(** [l[:n]] *)
Fixpoint take (n : Z) (l : list ascii) : list ascii :=
  match l with
  | [] => []
  | c :: r => if (0 <? n)%Z then c :: take (n - 1) r else []
  end.

(** [value[:32767]]: a cell keeps no more of a text. *)
Definition cut (value : string) : string :=
  Str.of_chars (take 32767 (Str.chars value)).

(** openpyxl's [check_string]: the text a cell keeps; [None] stands for
    [IllegalCharacterError]. *)
Definition check_string (value : string) : option string :=
  if existsb illegal_character (Str.chars (cut value)) then None
  else Some (cut value).

(** What the saved file holds for a cell that keeps [value]: a cell with
    the empty text is an empty cell. *)
Definition saved_value (value : string) : option string :=
  if Str.truthy value then Some value else None.

Definition refused (value : string) : bool :=
  match check_string value with Some _ => false | None => true end.

(** The exception that ends [df.to_excel], if any. *)
Definition to_excel_raises (columns : list string) (records : list dict)
    : option exception :=
  if (max_rows <? Z.of_nat (List.length records))%Z then Some ValueError
  else if existsb refused columns
          || existsb
               (fun r => existsb (fun c => refused (dict_get_or_empty r c)) columns)
               records
  then Some IllegalCharacterError
  else None.

(** The sheet of [to_excel] as the saved file holds it. *)
Definition to_excel_saved (columns : list string) (records : list dict)
    : worksheet :=
  fun row col =>
    match to_excel columns records row col with
    | Some value => saved_value (cut value)
    | None => None
    end.

Inductive run_result : Type :=
| Returned (o : outcome)                          (* exit status [exit_code o] *)
| Raised (e : exception) (printed : list string). (* a traceback, exit status 1 *)

Definition main_run (h : host) (w : env) : run_result :=
  let cwd := getcwd w in
  let folder_name := get_current_folder_name w in
  let files := input_files w in
  match files with
  | [] =>
      Returned
        (Outcome 0
           ["No matching HTML files (Fotos_*.html) found in current folder."] [])
  | _ :: _ =>
      let found :=
        ("Found " ++ Str.of_nat (List.length files)
           ++ " file(s) to process.")%string in
      let '(records, out, raised) := process_files_run h w (Str.sorted files) in
      match raised, records with
      | Some e, _ => Raised e (found :: out)
      | None, [] =>
          Returned (Outcome 0 ((found :: out) ++ ["No image records found."]) [])
      | None, _ :: _ =>
          let out_name := (folder_name ++ "_Image_Listing.xlsx")%string in
          let out_path := Path.join cwd out_name in
          match writer h out_path with
          | OpenFails => Raised OSError (found :: out)
          | status =>
              match to_excel_raises COLUMNS records with
              | Some e => Raised e (found :: out)
              | None =>
                  let worksheet :=
                    insert_rows 1 (insert_cols 1 (to_excel_saved COLUMNS records)) in
                  match status with
                  | SaveFails => Raised OSError (found :: out)
                  | _ =>
                      Returned
                        (Outcome 0
                           ((found :: out)
                              ++ [ ("Wrote " ++ Str.of_nat (List.length records)
                                      ++ " rows to " ++ out_path)%string;
                                   "Excel structure: Row 1 (empty), Row 2 (headers), Row 3+ (data)" ])
                           [(out_path, worksheet)])
                  end
              end
          end
      end
  end.

(** ** Vocabulary of the statements *)

(** [true] when the text does not end in a word character. *)
Definition open_end (pre : list ascii) : bool :=
  match rev pre with c :: _ => negb (Chr.is_word c) | [] => true end.

(** [true] when the text does not start with a word character. *)
Definition open_start (post : list ascii) : bool :=
  match post with c :: _ => negb (Chr.is_word c) | [] => true end.

(** The patterns listed under a label in [THREAT_VARIANTS]. *)
Definition patterns_of (label : string) : list re :=
  match List.find (fun e => String.eqb (fst e) label) THREAT_VARIANTS with
  | Some e => snd e
  | None => []
  end.

(** Some pattern of [label] matches within [text]. *)
Definition label_matches (label text : string) : bool :=
  existsb (fun pat => search pat text) (patterns_of label).

(** The number of [table] tags in a list of siblings. *)
Definition count_tables (sibs : list node) : nat :=
  List.length (filter (is_tag "table") sibs).

(** The list [records] that [main] builds before it writes anything. *)
Definition main_records (w : env) : list dict :=
  fst (process_files w (Str.sorted (input_files w))).

(** The path of the workbook of a run. *)
Definition out_path (w : env) : string :=
  Path.join (getcwd w) (get_current_folder_name w ++ "_Image_Listing.xlsx").

(** [r["Threat_Status"] = threat] for every row of a list. *)
Definition attach (threat : string) (rows : list dict) : list dict :=
  map (fun r => dict_set r "Threat_Status" threat) rows.

(** A [table] sibling with [width] "800" and [border] "1": the text tables
    that [find_following_800_text_tables] collects. *)
Definition is_text_table (sib : node) : bool :=
  is_tag "table" sib && attr_is sib "width" "800" && attr_is sib "border" "1".

(** The siblings that come before the first big image block. *)
Fixpoint until_big (sibs : list node) : list node :=
  match sibs with
  | [] => []
  | sib :: rest => if is_big_image_table sib then [] else sib :: until_big rest
  end.

(** A text that [_looks_like_stage_table] accepts: a stage keyword occurs in
    it (without regard to case), it has no digit and at most 120
    characters. *)
Definition stage_text (t : string) : bool :=
  existsb (fun kw => Str.contains kw (Str.lower t)) STAGE_KEYWORDS
  && negb (existsb Chr.is_digit (Str.chars t))
  && (String.length t <=? 120)%nat.

(** The columns that [main] always leaves empty. *)
Definition PLACEHOLDERS : list string :=
  [ "Species_ID"; "Subspecies_ID"; "Cover"; "Location"; "Province";
    "Country"; "Date" ].

(** No cell of the rows of a table is an "x" marker. *)
Definition unmarked (table : node) : Prop :=
  forall tr td,
    List.In tr (find_all table "tr" any) ->
    List.In td (find_all tr "td" any) ->
    is_marker td = false.

(** Every white-space character is a space that stands before a character
    that is no white space, or at the end. *)
Fixpoint single_spaced (l : list ascii) : bool :=
  match l with
  | [] => true
  | c :: r =>
      (negb (Chr.is_space c)
       || (Ascii.eqb c " " && match r with
                              | d :: _ => negb (Chr.is_space d)
                              | [] => true
                              end))
      && single_spaced r
  end.

(** The text does not start with white space. *)
Definition no_space_head (l : list ascii) : bool :=
  match l with c :: _ => negb (Chr.is_space c) | [] => true end.

(** ** Sample nodes, used to run the definitions *)

Module Sample.

Definition text (s : string) : node := NavigableString s.
Definition cell (attrs : list (string * string)) (children : list node) : node :=
  Tag "td" attrs children.
Definition tr (cells : list node) : node := Tag "tr" [] cells.
Definition img (src : string) : node := Tag "img" [("src", src)] [].
Definition link (href : string) (children : list node) : node :=
  Tag "a" [("href", href)] children.

(** A header table that names a stage. *)
Definition stage : node :=
  Tag "table" [("width", "800")] [tr [cell [] [text " Adult  male "]]].

(** A photo frame. *)
Definition big : node :=
  Tag "table" [("width", "800"); ("border", "9")]
    [tr [cell [] [link "big1.jpg" [img "t1.jpg"]]]].

(** The two text tables that follow a photo frame. *)
Definition camera : node :=
  Tag "table" [("width", "800"); ("border", "1")] [tr [cell [] [text "Canon 7D"]]].
Definition place : node :=
  Tag "table" [("width", "800"); ("border", "1")]
    [tr [cell [] [text "Laguna 2010"]]].

(** A table that is none of the above. *)
Definition plain : node := Tag "table" [] [tr [cell [] [text "2010"]]].

(** A contact sheet: a row of texts above a row of ffn.gif cells. *)
Definition sheet : node :=
  Tag "table" []
    [ tr [cell [("colspan", "2")] [text "Place A"]; cell [] [text "Place B"]];
      tr [ cell [("background", "img/ffn.gif")] [link "l1.jpg" [img "s1.jpg"]];
            cell [("background", "img/ffn.gif")] [img "s2.gif"];
            cell [("background", "img/ffn.gif")] [link "l3.html" [img "s3.jpg"]] ] ].

(** The status box: a header table and the table with the marked row. *)
Definition header : node :=
  Tag "table" [] [tr [cell [] [text "Globally Threatened  species"]]].
Definition status : node :=
  Tag "table" []
    [ tr [cell [] [text "-"]; cell [] [text "Vulnerable"]];
      tr [cell [] [text "X"]; cell [] [text "Cirtically-endagered"]] ].

Definition page (tables : list node) : node :=
  Tag "[document]" [] [Tag "html" [] [Tag "body" [] tables]].

Definition gallery : node :=
  page [header; text " "; status; stage; text " "; big; camera; place; stage; sheet].

(** A page without photo frames and without ffn.gif cells. *)
Definition bare : node := page [header; status; plain].

(** A folder with one readable page (after the fallback to latin-1) and
    one file that cannot be opened. *)
Definition folder : string := "/home/u/Gruiformes".
Definition good_file : string := "/home/u/Gruiformes/Fotos_Grus_grus.html".
Definition bad_file : string := "/home/u/Gruiformes/Fotos_locked.html".

Definition world_with (soup : node) (files : list string) : env :=
  {| getcwd := folder;
     glob := fun pattern =>
       if String.eqb pattern "/home/u/Gruiformes/Fotos_*.html" then files else [];
     isfile := fun _ => true;
     open_read := fun path enc =>
       if String.eqb path bad_file then OtherException "Permission denied"
       else match enc with
            | Utf8 => UnicodeDecodeError "invalid start byte"
            | Latin1 => ReadOk "<html>"
            end;
     BeautifulSoup := fun _ => soup |}.

Definition world : env := world_with gallery [good_file; bad_file].

(** A machine with room for lists of a million items, on which the
    workbook can be written. *)
Definition machine : host :=
  {| list_capacity := 1000000; writer := fun _ => WriterOk |}.

(** A contact sheet with a cell that spans 2^63 columns. *)
Definition wide_sheet : node :=
  Tag "table" []
    [ tr [cell [("colspan", "9223372036854775808")] [text "Place A"]];
      tr [cell [("background", "img/ffn.gif")] [img "s1.jpg"]] ].

(** A photo frame whose equipment text holds the character U+0001. *)
Definition smudged : node :=
  page [big; Tag "table" [("width", "800"); ("border", "1")]
               [tr [cell [] [text (String (ascii_of_nat 1) "Canon")]]]].

End Sample.

(** * Properties *)

(** ** Characters and strings *)

Ltac each_char c := destruct c as [[] [] [] [] [] [] [] []]; reflexivity.

Lemma lower_idempotent (c : ascii) : Chr.lower (Chr.lower c) = Chr.lower c.
Proof. each_char c. Qed.

Lemma is_space_lower (c : ascii) : Chr.is_space (Chr.lower c) = Chr.is_space c.
Proof. each_char c. Qed.

Lemma is_word_lower (c : ascii) : Chr.is_word (Chr.lower c) = Chr.is_word c.
Proof. each_char c. Qed.

Lemma chars_of_chars (l : list ascii) : Str.chars (Str.of_chars l) = l.
Proof. apply list_ascii_of_string_of_list_ascii. Qed.

Lemma of_chars_chars (s : string) : Str.of_chars (Str.chars s) = s.
Proof. apply string_of_list_ascii_of_string. Qed.

Lemma chars_lower (s : string) :
  Str.chars (Str.lower s) = map Chr.lower (Str.chars s).
Proof. unfold Str.lower. apply chars_of_chars. Qed.

Lemma lower_lower (s : string) : Str.lower (Str.lower s) = Str.lower s.
Proof.
  unfold Str.lower at 1. rewrite chars_lower, map_map.
  unfold Str.lower. f_equal. apply map_ext. intro c. apply lower_idempotent.
Qed.

(** ** Matching does not look at the case of the text *)

Section CaseBlind.

Variable s : list ascii.
Let s' := map Chr.lower s.

Lemma atom_ok_lower (c : ascii) (a : atom) :
  atom_ok (Chr.lower c) a = atom_ok c a.
Proof.
  destruct a; simpl.
  - now rewrite lower_idempotent.
  - apply is_space_lower.
  - apply is_word_lower.
Qed.

Lemma in_set_lower (l : list atom) (c : ascii) :
  in_set l (Chr.lower c) = in_set l c.
Proof.
  unfold in_set. induction l as [|a l IH]; simpl; [reflexivity|].
  now rewrite atom_ok_lower, IH.
Qed.

Lemma word_at_lower (i : nat) : word_at s' i = word_at s i.
Proof.
  unfold word_at, s'. rewrite nth_error_map.
  destruct (nth_error s i); simpl; [apply is_word_lower | reflexivity].
Qed.

Lemma boundary_lower (i : nat) : boundary s' i = boundary s i.
Proof.
  unfold boundary. destruct i; now rewrite ?word_at_lower.
Qed.

Lemma many_ends_lower (l : list atom) (fuel i : nat) :
  many_ends s' l fuel i = many_ends s l fuel i.
Proof.
  revert i. induction fuel as [|fuel IH]; intro i; simpl; [reflexivity|].
  unfold s' at 1. rewrite nth_error_map.
  destruct (nth_error s i) as [c|]; simpl; [|reflexivity].
  rewrite in_set_lower. destruct (in_set l c); [|reflexivity].
  now rewrite IH.
Qed.

Lemma ends_lower (r : re) (i : nat) : ends s' r i = ends s r i.
Proof.
  revert i. induction r as [|l| |r1 IH1 r2 IH2|r1 IH1 r2 IH2|r IH|l];
    intro i; simpl.
  - reflexivity.
  - unfold s'. rewrite nth_error_map.
    destruct (nth_error s i) as [c|]; simpl; [|reflexivity].
    now rewrite in_set_lower.
  - now rewrite boundary_lower.
  - rewrite IH1. apply flat_map_ext. intro j. apply IH2.
  - now rewrite IH1, IH2.
  - now rewrite IH.
  - unfold s'. rewrite length_map. apply many_ends_lower.
Qed.

End CaseBlind.

Lemma existsb_pointwise {A : Type} (f g : A -> bool) (l : list A) :
  (forall x, f x = g x) -> existsb f l = existsb g l.
Proof.
  intro H. induction l as [|x l IH]; simpl; [reflexivity|].
  now rewrite H, IH.
Qed.

Lemma search_lower (r : re) (text : string) :
  search r (Str.lower text) = search r text.
Proof.
  unfold search. rewrite chars_lower, length_map.
  apply existsb_pointwise. intro i. unfold matches_at. now rewrite ends_lower.
Qed.

Lemma first_label_lower (keep : re -> re) (text : string)
    (variants : list (string * list re)) :
  first_label keep (Str.lower text) variants = first_label keep text variants.
Proof.
  induction variants as [|[canonical patterns] rest IH]; simpl; [reflexivity|].
  rewrite IH.
  rewrite (existsb_pointwise _ (fun pat => search (keep pat) text)); [reflexivity|].
  intro pat. apply search_lower.
Qed.

Lemma match_threat_lower (text : string) :
  _match_threat_in_text (Str.lower text) = _match_threat_in_text text.
Proof. apply first_label_lower. Qed.

(** ** A pattern that matches a word matches it inside a longer text *)

Lemma many_ends_spec (t : list ascii) (l : list atom) (fuel i j : nat) :
  In j (many_ends t l fuel i) <->
  (i <= j <= i + fuel /\
   forall k, i <= k < j -> exists c, nth_error t k = Some c /\ in_set l c = true).
Proof.
  revert i. induction fuel as [|fuel IH]; intro i; simpl.
  - split.
    + intros [<- | []]. split; [lia|]. intros k Hk. lia.
    + intros [Hj _]. left. lia.
  - split.
    + intros [<- | Hin].
      * split; [lia|]. intros k Hk. lia.
      * destruct (nth_error t i) as [c|] eqn:Hc; [|destruct Hin].
        destruct (in_set l c) eqn:Hl; [|destruct Hin].
        apply IH in Hin. destruct Hin as [Hj Hall]. split; [lia|].
        intros k Hk. destruct (Nat.eq_dec k i) as [->|Hne].
        -- exists c. now split.
        -- apply Hall. lia.
    + intros [Hj Hall]. destruct (Nat.eq_dec i j) as [->|Hne]; [now left|].
      right. destruct (Hall i) as [c [Hc Hl]]; [lia|].
      rewrite Hc, Hl. apply IH. split; [lia|].
      intros k Hk. apply Hall. lia.
Qed.

Section Embedded.

Variables pre w post : list ascii.
Hypothesis Hpre : open_end pre = true.
Hypothesis Hpost : open_start post = true.

Let s := pre ++ w ++ post.
Let n := List.length pre.

Lemma nth_inside (i : nat) (c : ascii) :
  nth_error w i = Some c -> nth_error s (n + i) = Some c.
Proof.
  intro H. unfold s, n.
  rewrite nth_error_app2 by lia.
  replace (List.length pre + i - List.length pre) with i by lia.
  rewrite nth_error_app1; [assumption|].
  apply nth_error_Some. congruence.
Qed.

Lemma word_at_inside (i : nat) :
  i <= List.length w -> word_at s (n + i) = word_at w i.
Proof.
  intro Hi. unfold word_at.
  destruct (nth_error w i) as [c|] eqn:Hc.
  - now rewrite (nth_inside _ _ Hc).
  - apply nth_error_None in Hc. assert (i = List.length w) as -> by lia.
    unfold s, n. rewrite nth_error_app2 by lia.
    replace (List.length pre + List.length w - List.length pre)
      with (List.length w + 0) by lia.
    rewrite nth_error_app2 by lia.
    replace (List.length w + 0 - List.length w) with 0 by lia.
    unfold open_start in Hpost. destruct post as [|c p]; simpl; [reflexivity|].
    now apply negb_true_iff in Hpost.
Qed.

Lemma word_before_inside : n <> 0 -> word_at s (n - 1) = false.
Proof.
  intro Hn. unfold word_at, s, n in *.
  unfold open_end in Hpre.
  destruct (rev pre) as [|c r] eqn:Hr.
  - apply (f_equal (@List.length ascii)) in Hr. rewrite length_rev in Hr.
    simpl in Hr. lia.
  - assert (Hp : pre = rev r ++ [c]).
    { rewrite <- (rev_involutive pre), Hr. reflexivity. }
    rewrite Hp, length_app, length_rev. simpl.
    replace (List.length r + 1 - 1) with (List.length (rev r) + 0)
      by (rewrite length_rev; lia).
    rewrite <- app_assoc, nth_error_app2 by lia.
    replace (List.length (rev r) + 0 - List.length (rev r)) with 0 by lia.
    simpl. now apply negb_true_iff in Hpre.
Qed.

Lemma boundary_inside (i : nat) :
  i <= List.length w -> boundary s (n + i) = boundary w i.
Proof.
  intro Hi. unfold boundary. rewrite (word_at_inside i Hi).
  destruct i as [|i].
  - destruct (n + 0) as [|m] eqn:Hn; [reflexivity|].
    replace m with (n - 1) by lia. rewrite word_before_inside by lia.
    reflexivity.
  - replace (n + S i) with (S (n + i)) by lia.
    rewrite word_at_inside by lia. reflexivity.
Qed.

Lemma ends_inside (r : re) (i j : nat) :
  i <= List.length w -> In j (ends w r i) ->
  j <= List.length w /\ In (n + j) (ends s r (n + i)).
Proof.
  revert i j. induction r as [|l| |r1 IH1 r2 IH2|r1 IH1 r2 IH2|r IH|l];
    intros i j Hi Hin; simpl in *.
  - destruct Hin as [<- | []]. split; [lia | now left].
  - destruct (nth_error w i) as [c|] eqn:Hc; [|destruct Hin].
    rewrite (nth_inside _ _ Hc).
    destruct (in_set l c); [|destruct Hin].
    destruct Hin as [<- | []]. split.
    + assert (i < List.length w) by (apply nth_error_Some; congruence). lia.
    + left. lia.
  - rewrite boundary_inside by lia.
    destruct (boundary w i); [|destruct Hin].
    destruct Hin as [<- | []]. split; [lia | now left].
  - apply in_flat_map in Hin. destruct Hin as [k [Hk Hj]].
    destruct (IH1 _ _ Hi Hk) as [Hk1 Hk2].
    destruct (IH2 _ _ Hk1 Hj) as [Hj1 Hj2].
    split; [assumption|]. apply in_flat_map. now exists (n + k).
  - apply in_app_or in Hin. destruct Hin as [H|H].
    + destruct (IH1 _ _ Hi H). split; [assumption|]. apply in_or_app. now left.
    + destruct (IH2 _ _ Hi H). split; [assumption|]. apply in_or_app. now right.
  - destruct Hin as [<- | H]; [split; [lia | now left]|].
    destruct (IH _ _ Hi H). split; [assumption|]. now right.
  - apply many_ends_spec in Hin. destruct Hin as [Hj Hall].
    assert (Hle : j <= List.length w).
    { destruct (Nat.eq_dec i j) as [->|Hne]; [assumption|].
      destruct (Hall (j - 1)) as [c [Hc _]]; [lia|].
      assert (j - 1 < List.length w) by (apply nth_error_Some; congruence).
      lia. }
    split; [assumption|]. apply many_ends_spec. split.
    + unfold s. rewrite !length_app. lia.
    + intros k Hk. destruct (Hall (k - n)) as [c [Hc Hl]]; [lia|].
      exists c. split; [|assumption].
      replace k with (n + (k - n)) by lia. now apply nth_inside.
Qed.

Lemma search_inside (r : re) :
  matches_at w r 0 = true -> search r (Str.of_chars s) = true.
Proof.
  unfold matches_at, search. intro H.
  destruct (ends w r 0) as [|j js] eqn:He; [discriminate|].
  destruct (ends_inside r 0 j) as [_ Hin]; [lia | rewrite He; now left |].
  rewrite chars_of_chars. apply existsb_exists. exists n. split.
  - apply in_seq. unfold s, n. rewrite length_app. lia.
  - unfold matches_at. replace (n + 0) with n in Hin by lia.
    destruct (ends s r n); [destruct Hin | reflexivity].
Qed.

End Embedded.

(** ** Conservation-status matching *)

Lemma chars_append (a b : string) :
  Str.chars (a ++ b) = Str.chars a ++ Str.chars b.
Proof.
  induction a as [|c a IH]; simpl; [reflexivity|]. unfold Str.chars in *.
  simpl. now rewrite IH.
Qed.

(** The dictionary is tried in its order: the first label with a matching
    pattern wins. *)
Lemma match_threat_by_priority (text : string) :
  _match_threat_in_text text =
  if label_matches "Near-threatened" text then "Near-threatened"
  else if label_matches "Vulnerable" text then "Vulnerable"
  else if label_matches "Endangered" text then "Endangered"
  else if label_matches "Critically Endangered" text then "Critically Endangered"
  else "".
Proof. reflexivity. Qed.

Lemma label_matches_inside (label : string) (pat : re) (pre form post : string) :
  List.In pat (patterns_of label) ->
  matches_at (Str.chars form) pat 0 = true ->
  open_end (Str.chars pre) = true ->
  open_start (Str.chars post) = true ->
  label_matches label (pre ++ form ++ post) = true.
Proof.
  intros Hin Hm Hpre Hpost. unfold label_matches.
  apply existsb_exists. exists pat. split; [assumption|].
  rewrite <- (of_chars_chars (pre ++ form ++ post)), !chars_append.
  now apply search_inside.
Qed.

Lemma label_matches_lower (label text : string) :
  label_matches label (Str.lower text) = label_matches label text.
Proof.
  unfold label_matches. apply existsb_pointwise. intro pat. apply search_lower.
Qed.

Lemma match_threat_same_lower (text text' : string) :
  Str.lower text = Str.lower text' ->
  _match_threat_in_text text = _match_threat_in_text text'.
Proof.
  intro H. rewrite <- (match_threat_lower text), H. apply match_threat_lower.
Qed.

(** The entries are tried in the order of the dictionary, and "Endangered"
    comes before "Critically Endangered": a text with a correctly spelled
    "endangered" (or "en peligro") standing as a word is answered by the
    earlier entry, whatever comes before that word. *)
Example critically_endangered_reads_endangered :
  _match_threat_in_text "Critically Endangered" = "Endangered"
  /\ _match_threat_in_text "Critical endangerd" = "Endangered"
  /\ _match_threat_in_text "En peligro critico" = "Endangered".
Proof. repeat split; vm_compute; reflexivity. Qed.




(** ** Big image blocks *)

Lemma endswith_jpg_spec (value : option string) :
  endswith_jpg value = true <->
  exists v, value = Some v /\ Str.endswith ".jpg" v = true.
Proof.
  destruct value as [v|]; simpl.
  - split.
    + intro H. apply andb_true_iff in H. exists v. now split.
    + intros [v' [[= <-] H]]. rewrite H. now destruct v.
  - split; [discriminate | intros [v [[=] _]]].
Qed.

Lemma find_some_iff (n : node) (name : string) (ok : node -> bool) :
  (exists d, find n name ok = Some d) <->
  (exists d, List.In d (descendants n) /\ is_tag name d = true /\ ok d = true).
Proof.
  unfold find, find_all. split.
  - intros [d H].
    destruct (filter _ (descendants n)) as [|x l] eqn:Hf; [discriminate|].
    injection H as ->.
    assert (Hin : List.In d (filter (fun d => is_tag name d && ok d) (descendants n)))
      by (rewrite Hf; now left).
    apply filter_In in Hin. destruct Hin as [Hin Hok].
    apply andb_true_iff in Hok. exists d. tauto.
  - intros [d [Hin [Ht Hok]]].
    assert (Hf : List.In d (filter (fun d => is_tag name d && ok d) (descendants n))).
    { apply filter_In. split; [assumption|]. now rewrite Ht, Hok. }
    destruct (filter _ (descendants n)) as [|x l]; [destruct Hf|].
    now exists x.
Qed.

Lemma big_image_is_table (tbl : node) :
  is_big_image_table tbl = true -> is_tag "table" tbl = true.
Proof.
  unfold is_big_image_table. now destruct (is_tag "table" tbl).
Qed.

(** C4, as the code has it.  A node is a big image block exactly when it is
    a [table] tag whose [width] attribute is the text "800", whose [border]
    attribute, read as an integer (0 when missing or not an integer), is at
    least 6, and which contains an [img] whose [src] ends in ".jpg". *)
Theorem is_big_image_table_iff (tbl : node) :
  is_big_image_table tbl = true <->
  (is_tag "table" tbl = true
   /\ get tbl "width" = Some "800"
   /\ (6 <= int_or 0 (get_or tbl "border" "0"))%Z
   /\ exists img src,
        List.In img (descendants tbl) /\ is_tag "img" img = true
        /\ get img "src" = Some src /\ Str.endswith ".jpg" src = true).
Proof.
  unfold is_big_image_table, attr_is.
  destruct (is_tag "table" tbl); simpl; [|split; [discriminate | intros [[=] _]]].
  destruct (get tbl "width") as [wd|] eqn:Hw; simpl;
    [|split; [discriminate | intros [_ [[=] _]]]].
  destruct (String.eqb_spec wd "800") as [->|Hne]; simpl;
    [|split; [discriminate | intros [_ [[= H] _]]; contradiction]].
  destruct (Z.ltb_spec (int_or 0 (get_or tbl "border" "0")) 6) as [Hlt|Hge];
    [split; [discriminate | intros [_ [_ [H _]]]; lia]|].
  split.
  - intro H.
    destruct (find tbl "img" _) as [d|] eqn:Hf; [|discriminate].
    destruct (proj1 (find_some_iff _ _ _) (ex_intro _ d Hf)) as [i [Hin [Ht Hok]]].
    apply endswith_jpg_spec in Hok. destruct Hok as [src [Hs He]].
    repeat split; try assumption. now exists i, src.
  - intros [_ [_ [_ [i [src [Hin [Ht [Hs He]]]]]]]].
    destruct (proj2 (find_some_iff tbl "img" (fun i => endswith_jpg (get i "src"))))
      as [d Hd].
    + exists i. repeat split; try assumption.
      apply endswith_jpg_spec. now exists src.
    + now rewrite Hd.
Qed.

(** C4, as the specification words it, fails: two tables with the same
    [width] and [border] are classified differently, and more than one
    [border] value is accepted, so that no fixed pair of attribute values
    decides the classification. *)
Lemma is_big_image_table_not_by_attributes_alone :
  let photo := Tag "img" [("src", "crane.jpg")] [] in
  is_big_image_table (Tag "table" [("width", "800"); ("border", "9")] []) = false
  /\ is_big_image_table (Tag "table" [("width", "800"); ("border", "9")] [photo]) = true
  /\ is_big_image_table (Tag "table" [("width", "800"); ("border", "6")] [photo]) = true
  /\ ~ (exists fixed : option string -> option string -> bool,
          forall attrs children,
            is_big_image_table (Tag "table" attrs children)
            = fixed (lookup "width" attrs) (lookup "border" attrs)).
Proof.
  intro photo. split; [reflexivity|]. split; [reflexivity|]. split; [reflexivity|].
  intros [fixed H].
  pose proof (H [("width", "800"); ("border", "9")] []) as H1.
  pose proof (H [("width", "800"); ("border", "9")] [photo]) as H2.
  simpl lookup in H1, H2. rewrite <- H1 in H2. discriminate H2.
Qed.

(** ** Stage-label lookback *)

Lemma stage_lookback_stops_at_big (pre post : list node) (big : node)
    (count max_lookback_tables : Z) :
  is_big_image_table big = true ->
  stage_lookback (pre ++ big :: post) count max_lookback_tables
  = stage_lookback pre count max_lookback_tables.
Proof.
  intro Hbig. revert count.
  induction pre as [|sib pre IH]; intro count; simpl.
  - rewrite Hbig. now rewrite (big_image_is_table _ Hbig).
  - destruct (is_tag "table" sib); simpl; [|apply IH].
    destruct (is_big_image_table sib); [reflexivity|].
    destruct (_looks_like_stage_table sib); [reflexivity|].
    destruct (max_lookback_tables <=? count + 1)%Z; [reflexivity|]. apply IH.
Qed.

Lemma stage_lookback_bounded (pre post : list node)
    (count max_lookback_tables : Z) :
  count_tables pre <> 0 ->
  (max_lookback_tables <= count + Z.of_nat (count_tables pre))%Z ->
  stage_lookback (pre ++ post) count max_lookback_tables
  = stage_lookback pre count max_lookback_tables.
Proof.
  revert count. unfold count_tables.
  induction pre as [|sib pre IH]; intros count Hne Hmax; simpl in *.
  - contradiction.
  - destruct (is_tag "table" sib); simpl in *; [|now apply IH].
    destruct (is_big_image_table sib); [reflexivity|].
    destruct (_looks_like_stage_table sib); [reflexivity|].
    destruct (Z.leb_spec max_lookback_tables (count + 1)); [reflexivity|].
    apply IH; lia.
Qed.

Lemma stage_lookback_source (sibs : list node) (count max_lookback_tables : Z) :
  stage_lookback sibs count max_lookback_tables = ""
  \/ exists i sib,
       nth_error sibs i = Some sib
       /\ is_tag "table" sib = true
       /\ _looks_like_stage_table sib = true
       /\ stage_lookback sibs count max_lookback_tables = text_of sib
       /\ (forall j other, j <= i -> nth_error sibs j = Some other ->
             is_big_image_table other = false)
       /\ (count_tables (firstn i sibs) = 0
           \/ (count + Z.of_nat (count_tables (firstn i sibs))
               < max_lookback_tables)%Z).
Proof.
  revert count. unfold count_tables.
  induction sibs as [|sib sibs IH]; intro count; simpl; [now left|].
  destruct (is_tag "table" sib) eqn:Ht; simpl.
  - destruct (is_big_image_table sib) eqn:Hb; [now left|].
    destruct (_looks_like_stage_table sib) eqn:Hs.
    + right. exists 0, sib. simpl. repeat split; try assumption.
      * intros j other Hj Hn. assert (j = 0) as -> by lia.
        simpl in Hn. now injection Hn as <-.
      * now left.
    + destruct (Z.leb_spec max_lookback_tables (count + 1)); [now left|].
      destruct (IH (count + 1)%Z) as [He | [i [x [Hn [Hx [Hl [Hr [Hnb Hc]]]]]]]];
        [now left|].
      right. exists (S i), x. simpl. rewrite Ht. simpl.
      repeat split; try assumption.
      * intros [|j] other Hj Hj'; simpl in Hj'.
        -- now injection Hj' as <-.
        -- apply (Hnb j); [lia | assumption].
      * right. lia.
  - destruct (IH count) as [He | [i [x [Hn [Hx [Hl [Hr [Hnb Hc]]]]]]]];
      [now left|].
    right. exists (S i), x. simpl. rewrite Ht.
    repeat split; try assumption.
    intros [|j] other Hj Hj'; simpl in Hj'.
    + injection Hj' as <-. unfold is_big_image_table. now rewrite Ht.
    + apply (Hnb j); [lia | assumption].
Qed.

(** C2. The stage label of a table comes from a previous sibling that is
    nearer than every big image block among the previous siblings, and from
    one of the three nearest tables.  Siblings at or beyond the first big
    image block, and siblings beyond the third table, have no influence on
    the result. *)
Theorem stage_lookback_never_crosses_big_block
    (prev next : list node) (tbl : node) :
  (forall pre big post,
     prev = pre ++ big :: post ->
     is_big_image_table big = true ->
     find_stage_tag_near_table (Loc prev tbl next) 3
     = find_stage_tag_near_table (Loc pre tbl next) 3)
  /\ (forall pre post,
        prev = pre ++ post ->
        3 <= count_tables pre ->
        find_stage_tag_near_table (Loc prev tbl next) 3
        = find_stage_tag_near_table (Loc pre tbl next) 3)
  /\ (find_stage_tag_near_table (Loc prev tbl next) 3 = ""
      \/ exists i sib,
           nth_error prev i = Some sib
           /\ is_tag "table" sib = true
           /\ _looks_like_stage_table sib = true
           /\ find_stage_tag_near_table (Loc prev tbl next) 3 = text_of sib
           /\ (forall j other, j <= i -> nth_error prev j = Some other ->
                 is_big_image_table other = false)
           /\ count_tables (firstn i prev) < 3).
Proof.
  unfold find_stage_tag_near_table. simpl. repeat split.
  - intros pre big post -> Hbig. now apply stage_lookback_stops_at_big.
  - intros pre post -> Hc. apply stage_lookback_bounded; lia.
  - destruct (stage_lookback_source prev 0 3)
      as [He | [i [sib [Hn [Ht [Hl [Hr [Hb Hc]]]]]]]]; [now left|].
    right. exists i, sib. repeat split; try assumption. lia.
Qed.

Lemma stage_lookback_never_crosses_big_block_witness :
  find_stage_tag_near_table
    (Loc [Sample.text " "; Sample.plain; Sample.big; Sample.stage] Sample.big []) 3
  = ""
  /\ find_stage_tag_near_table
       (Loc [Sample.plain; Sample.plain; Sample.plain; Sample.stage] Sample.big []) 3
     = "".
Proof.
  split.
  - rewrite (proj1 (stage_lookback_never_crosses_big_block _ [] Sample.big)
               [Sample.text " "; Sample.plain] Sample.big [Sample.stage]);
      reflexivity.
  - rewrite (proj1 (proj2 (stage_lookback_never_crosses_big_block _ [] Sample.big))
               [Sample.plain; Sample.plain; Sample.plain] [Sample.stage]);
      [reflexivity | reflexivity | vm_compute; lia].
Defined.

Example stage_label_found :
  find_stage_tag_near_table
    (Loc [Sample.text " "; Sample.plain; Sample.stage; Sample.big] Sample.big []) 3
  = "Adult male".
Proof. vm_compute. reflexivity. Qed.

(** ** The rows of the two parsers *)

Lemma flat_map_nil {A B : Type} (f : A -> list B) (l : list A) :
  (forall x, List.In x l -> f x = []) -> flat_map f l = [].
Proof.
  induction l as [|x l IH]; intro H; simpl; [reflexivity|].
  rewrite (H x) by now left. apply IH. intros y Hy. apply H. now right.
Qed.

Lemma falsy_false (x : option string) :
  falsy x = false -> exists v, x = Some v /\ or_empty x = v.
Proof. destruct x as [v|]; [|discriminate]. intros _. now exists v. Qed.

Lemma extract_thumb_is_jpg (table : node) :
  fst (extract_first_img_and_anchor table) = None
  \/ endswith_jpg (fst (extract_first_img_and_anchor table)) = true.
Proof.
  unfold extract_first_img_and_anchor.
  assert (Hfb :
    forall p,
      p = match find table "img" (has_attr "src") with
          | Some img_tag =>
              if endswith_jpg (get img_tag "src")
              then (get img_tag "src", @None string)
              else (None, None)
          | None => (None, None)
          end ->
      fst p = None \/ endswith_jpg (fst p) = true).
  { intros p ->. destruct (find table "img" (has_attr "src")) as [i|]; [|now left].
    destruct (endswith_jpg (get i "src")) eqn:H; [now right | now left]. }
  destruct (find table "a" (has_attr "href")) as [a|]; [|now apply Hfb].
  destruct (find a "img" (has_attr "src")) as [i|]; [|now apply Hfb].
  destruct (endswith_jpg (get i "src")) eqn:H; [now right | now apply Hfb].
Qed.

(** Every row of [parse_big_blocks] is a big-block row with a ".jpg"
    thumbnail. *)
Lemma parse_big_blocks_rows (soup : node) (r : dict) :
  List.In r (parse_big_blocks soup) ->
  exists thumb large camera location stage,
    r = row "" thumb large camera location stage
    /\ endswith_jpg (Some thumb) = true.
Proof.
  unfold parse_big_blocks. intro H. apply in_flat_map in H.
  destruct H as [tbl [_ H]].
  destruct (is_big_image_table (self tbl)); simpl in H; [|destruct H].
  pose proof (extract_thumb_is_jpg (self tbl)) as Hjpg.
  destruct (extract_first_img_and_anchor (self tbl)) as [thumb large].
  simpl in Hjpg.
  destruct (falsy thumb) eqn:Hf; [destruct H|].
  destruct (falsy_false _ Hf) as [v [-> Hv]].
  destruct H as [<- | []]. simpl.
  destruct Hjpg as [Hn | Hj]; [discriminate|].
  now exists v, (or_empty large),
    (nth 0 (find_following_800_text_tables tbl 2) ""),
    (nth 1 (find_following_800_text_tables tbl 2) ""),
    (find_stage_tag_near_table tbl 3).
Qed.

Lemma ffn_row_cells_rows (tds : list node) (ptr : nat) (last : list string)
    (stage : string) (r : dict) :
  List.In r (ffn_row_cells tds ptr last stage) ->
  exists thumb large location,
    r = row "Y" thumb large "" location stage
    /\ endswith_jpg (Some thumb) = true.
Proof.
  revert ptr. induction tds as [|td tds IH]; intros ptr H; simpl in H;
    [destruct H|].
  apply in_app_or in H. destruct H as [H | H]; [|now apply (IH _ H)].
  destruct (Str.contains "ffn.gif" (get_or td "background" "")); [|destruct H].
  destruct (find td "img" (has_attr "src")) as [i|]; [|destruct H].
  destruct (endswith_jpg (get i "src")) eqn:Hj; [|destruct H].
  destruct (falsy (get i "src")) eqn:Hf; [destruct H|].
  destruct (falsy_false _ Hf) as [v [Hv Hv']].
  destruct H as [<- | []]. rewrite Hv' . rewrite Hv in Hj.
  eexists v, _, _. split; [reflexivity | assumption].
Qed.

Lemma ffn_table_rows_rows (trs : list node) (last : list string)
    (stage : string) (r : dict) :
  List.In r (ffn_table_rows trs last stage) ->
  exists thumb large location,
    r = row "Y" thumb large "" location stage
    /\ endswith_jpg (Some thumb) = true.
Proof.
  revert last. induction trs as [|tr trs IH]; intros last H; simpl in H;
    [destruct H|].
  destruct (existsb has_ffn_background (find_all tr "td" any)); simpl in H.
  - apply in_app_or in H. destruct H as [H | H].
    + now apply ffn_row_cells_rows in H.
    + now apply IH in H.
  - now apply IH in H.
Qed.

(** Every row of [parse_small_ffn_tables] is a small-thumbnail row with a
    ".jpg" thumbnail and no equipment text. *)
Lemma parse_small_ffn_tables_rows (soup : node) (r : dict) :
  List.In r (parse_small_ffn_tables soup) ->
  exists thumb large location stage,
    r = row "Y" thumb large "" location stage
    /\ endswith_jpg (Some thumb) = true.
Proof.
  unfold parse_small_ffn_tables. intro H. apply in_flat_map in H.
  destruct H as [tbl [_ H]].
  destruct (find_all (self tbl) "td" has_ffn_background); [destruct H|].
  apply ffn_table_rows_rows in H.
  destruct H as [thumb [large [location H]]].
  now exists thumb, large, location, (find_stage_tag_near_table tbl 3).
Qed.

(** What the inner loop of [main] makes of a parser row with the threat
    status attached. *)
Lemma records_of_attached_row (species threat : string)
    (is_small thumb large camera location stage : string) :
  endswith_jpg (Some thumb) = true ->
  records_of_rows species
    [dict_set (row is_small thumb large camera location stage)
       "Threat_Status" threat]
  = [ [ ("Species_ID", ""); ("Slug", species); ("Subspecies_ID", "");
        ("Slide", is_small); ("Cover", ""); ("Thumbnail_Filename", thumb);
        ("Large_Filename", large); ("Equipment", camera); ("Sex_Age", stage);
        ("Location", ""); ("Province", ""); ("Country", ""); ("Date", "");
        ("Location_Date", location); ("Threat_Status", threat) ] ].
Proof.
  intro H. unfold records_of_rows. cbn [flat_map].
  change (dict_get (dict_set (row is_small thumb large camera location stage)
                      "Threat_Status" threat) "Thumbnail_File")
    with (Some thumb).
  rewrite H. reflexivity.
Qed.

(** ** From rows to records and to the sheet *)

Lemma records_of_rows_app (species : string) (a b : list dict) :
  records_of_rows species (a ++ b)
  = records_of_rows species a ++ records_of_rows species b.
Proof. apply flat_map_app. Qed.

(** [main] keeps a row only when its thumbnail ends in ".jpg", whatever
    the rows are. *)
Lemma records_of_rows_jpg (species : string) (rows : list dict) (rec : dict) :
  List.In rec (records_of_rows species rows) ->
  exists r v,
    List.In r rows /\ rec = r_out species r
    /\ dict_get r "Thumbnail_File" = Some v
    /\ dict_get rec "Thumbnail_Filename" = Some v
    /\ Str.endswith ".jpg" v = true.
Proof.
  unfold records_of_rows. intro H. apply in_flat_map in H.
  destruct H as [r [Hr H]].
  destruct (endswith_jpg (dict_get r "Thumbnail_File")) eqn:Hj; simpl in H;
    [|destruct H].
  destruct H as [<- | []].
  apply endswith_jpg_spec in Hj. destruct Hj as [v [Hv He]].
  exists r, v. repeat split; try assumption.
  unfold r_out, dict_get_or_empty. rewrite Hv. reflexivity.
Qed.

Lemma process_file_records (w : env) (path : string) (rec : dict) :
  List.In rec (fst (process_file w path)) ->
  exists species,
    List.In rec (records_of_rows species (fst (parse_file w path))).
Proof.
  unfold process_file.
  destruct (Str.startswith "Fotos_" _); simpl; [|intros []].
  destruct (parse_file w path) as [rows out]. simpl. intro H. eauto.
Qed.

Lemma process_files_records (w : env) (paths : list string) (rec : dict) :
  List.In rec (fst (process_files w paths)) ->
  exists path, List.In path paths /\ List.In rec (fst (process_file w path)).
Proof.
  induction paths as [|path paths IH]; simpl; [intros []|].
  destruct (process_file w path) as [recs out] eqn:Hp.
  destruct (process_files w paths) as [recs' out']. simpl in *.
  intro H. apply in_app_or in H. destruct H as [H | H].
  - exists path. rewrite Hp. split; [now left | assumption].
  - destruct (IH H) as [p [Hin Hrec]]. exists p. split; [now right | assumption].
Qed.

Lemma parse_file_rows (w : env) (path : string) :
  fst (parse_file w path) = []
  \/ exists html, fst (parse_file w path) = rows_of_soup (BeautifulSoup w html).
Proof.
  unfold parse_file. destruct (read_html_file w path) as [[html|] out]; simpl.
  - right. now exists html.
  - now left.
Qed.

(** What [main] saves: nothing without records, else one workbook. *)
Lemma main_written (w : env) :
  written (main w)
  = match main_records w with
    | [] => []
    | _ :: _ =>
        [ (out_path w,
           insert_rows 1 (insert_cols 1 (to_excel COLUMNS (main_records w)))) ]
    end.
Proof.
  unfold main, main_records, out_path.
  destruct (input_files w) as [|f files]; [reflexivity|].
  destruct (process_files w (Str.sorted (f :: files))) as [[|rec records] out];
    reflexivity.
Qed.

(** A cell of the saved sheet from row 3 and column B on is a field of a
    record. *)
Lemma saved_cell (records : list dict) (i j : nat) :
  insert_rows 1 (insert_cols 1 (to_excel COLUMNS records)) (3 + i) (2 + j)
  = match nth_error records i, nth_error COLUMNS j with
    | Some r, Some c => Some (dict_get_or_empty r c)
    | _, _ => None
    end.
Proof. reflexivity. Qed.

(** C1. Every row of both parsers has a thumbnail that passes
    [endswith_jpg]; the inner loop of [main] keeps only such rows, whatever
    rows it is given; so every record of a run has a [Thumbnail_Filename]
    that ends in ".jpg", and so has every data cell of that column (column
    G, rows 3 and below) of the workbook that is saved. *)
Theorem thumbnail_filenames_end_in_jpg :
  (forall soup r,
     List.In r (parse_big_blocks soup) ->
     endswith_jpg (dict_get r "Thumbnail_File") = true)
  /\ (forall soup r,
        List.In r (parse_small_ffn_tables soup) ->
        endswith_jpg (dict_get r "Thumbnail_File") = true)
  /\ (forall species rows rec,
        List.In rec (records_of_rows species rows) ->
        endswith_jpg (dict_get rec "Thumbnail_Filename") = true)
  /\ (forall w rec,
        List.In rec (main_records w) ->
        exists v, dict_get rec "Thumbnail_Filename" = Some v
                  /\ Str.endswith ".jpg" v = true)
  /\ (forall w path sheet i,
        List.In (path, sheet) (written (main w)) ->
        i < List.length (main_records w) ->
        exists v, sheet 2 7 = Some "Thumbnail_Filename"
                  /\ sheet (3 + i) 7 = Some v
                  /\ Str.endswith ".jpg" v = true).
Proof.
  assert (Hrec : forall species rows rec,
            List.In rec (records_of_rows species rows) ->
            exists v, dict_get rec "Thumbnail_Filename" = Some v
                      /\ Str.endswith ".jpg" v = true).
  { intros species rows rec H.
    destruct (records_of_rows_jpg _ _ _ H) as [r [v [_ [_ [_ [Hv He]]]]]].
    now exists v. }
  assert (Hmain : forall w rec,
            List.In rec (main_records w) ->
            exists v, dict_get rec "Thumbnail_Filename" = Some v
                      /\ Str.endswith ".jpg" v = true).
  { intros w rec H. apply process_files_records in H.
    destruct H as [path [_ H]]. apply process_file_records in H.
    destruct H as [species H]. now apply Hrec in H. }
  repeat split.
  - intros soup r H. apply parse_big_blocks_rows in H.
    destruct H as [thumb [large [camera [location [stage [-> H]]]]]]. exact H.
  - intros soup r H. apply parse_small_ffn_tables_rows in H.
    destruct H as [thumb [large [location [stage [-> H]]]]]. exact H.
  - intros species rows rec H. apply Hrec in H. destruct H as [v [Hv He]].
    apply endswith_jpg_spec. now exists v.
  - exact Hmain.
  - intros w path sheet i Hin Hi. rewrite main_written in Hin.
    destruct (main_records w) as [|rec0 recs] eqn:Hm; [destruct Hin|].
    destruct Hin as [[= _ <-] | []].
    destruct (nth_error (rec0 :: recs) i) as [rec|] eqn:Hn;
      [|apply nth_error_None in Hn; lia].
    destruct (Hmain w rec) as [v [Hv He]];
      [rewrite Hm; now apply nth_error_In in Hn|].
    exists v. split; [reflexivity|]. split; [|assumption].
    change 7 with (2 + 5). rewrite saved_cell, Hn. cbn [nth_error COLUMNS].
    unfold dict_get_or_empty. now rewrite Hv.
Qed.

Lemma thumbnail_filenames_end_in_jpg_witness :
  endswith_jpg
    (dict_get (row "" "t1.jpg" "big1.jpg" "Canon 7D" "Laguna 2010" "Adult male")
       "Thumbnail_File") = true
  /\ endswith_jpg
       (dict_get (row "Y" "s1.jpg" "l1.jpg" "" "Place A" "Adult male")
          "Thumbnail_File") = true
  /\ endswith_jpg
       (dict_get (r_out "Grus" (row "" "t1.jpg" "" "" "" "")) "Thumbnail_Filename")
     = true
  /\ (exists v,
        dict_get (nth 0 (main_records Sample.world) []) "Thumbnail_Filename" = Some v
        /\ Str.endswith ".jpg" v = true)
  /\ (exists v,
        insert_rows 1 (insert_cols 1 (to_excel COLUMNS (main_records Sample.world)))
          2 7 = Some "Thumbnail_Filename"
        /\ insert_rows 1 (insert_cols 1 (to_excel COLUMNS (main_records Sample.world)))
             (3 + 2) 7 = Some v
        /\ Str.endswith ".jpg" v = true).
Proof.
  destruct thumbnail_filenames_end_in_jpg as [H1 [H2 [H3 [H4 H5]]]].
  split; [|split; [|split; [|split]]].
  - apply (H1 Sample.gallery). vm_compute. tauto.
  - apply (H2 Sample.gallery). vm_compute. tauto.
  - apply (H3 "Grus" [row "" "t1.jpg" "" "" "" ""; row "" "t1.gif" "" "" "" ""]).
    vm_compute. tauto.
  - apply (H4 Sample.world). vm_compute. tauto.
  - apply (H5 Sample.world (out_path Sample.world)).
    + rewrite main_written. vm_compute. tauto.
    + vm_compute. lia.
Defined.

(** ** Pages without matching tables *)

Lemma located_table_found (soup : node) (tbl : loc) :
  List.In tbl (find_all_located soup "table") ->
  List.In (self tbl) (find_all soup "table" any).
Proof.
  unfold find_all_located, find_all, descendants. intro H.
  apply filter_In in H. destruct H as [Hin Ht].
  apply filter_In. split.
  - now apply in_map.
  - now rewrite Ht.
Qed.

(** C8. A page none of whose tables is a big image block or holds an
    ffn.gif cell gives no rows: both parsers return the empty list, and
    [parse_file] returns the empty list for every file that parses to such a
    page. *)
Theorem no_matching_tables_no_records (soup : node) :
  (forall tbl,
     List.In tbl (find_all soup "table" any) ->
     is_big_image_table tbl = false
     /\ find_all tbl "td" has_ffn_background = []) ->
  parse_big_blocks soup = []
  /\ parse_small_ffn_tables soup = []
  /\ (forall w path html out,
        read_html_file w path = (Some html, out) ->
        BeautifulSoup w html = soup ->
        parse_file w path = ([], out)).
Proof.
  intro H.
  assert (Hbig : parse_big_blocks soup = []).
  { apply flat_map_nil. intros tbl Hin.
    destruct (H _ (located_table_found _ _ Hin)) as [Hb _]. now rewrite Hb. }
  assert (Hsmall : parse_small_ffn_tables soup = []).
  { apply flat_map_nil. intros tbl Hin.
    destruct (H _ (located_table_found _ _ Hin)) as [_ Hf]. now rewrite Hf. }
  repeat split; try assumption.
  intros w path html out Hread Hsoup. unfold parse_file, rows_of_soup.
  now rewrite Hread, Hsoup, Hbig, Hsmall.
Qed.

Lemma no_matching_tables_no_records_witness :
  parse_big_blocks Sample.bare = []
  /\ parse_small_ffn_tables Sample.bare = []
  /\ parse_file (Sample.world_with Sample.bare [Sample.good_file]) Sample.good_file
     = ([], []).
Proof.
  assert (H : forall tbl,
             List.In tbl (find_all Sample.bare "table" any) ->
             is_big_image_table tbl = false
             /\ find_all tbl "td" has_ffn_background = []).
  { intros tbl Hin. vm_compute in Hin.
    destruct Hin as [<- | [<- | [<- | []]]]; split; reflexivity. }
  destruct (no_matching_tables_no_records Sample.bare H) as [H1 [H2 H3]].
  split; [exact H1 | split; [exact H2|]].
  apply (H3 _ _ "<html>"); reflexivity.
Defined.

(** ** Threat status *)

Lemma first_label_in (keep : re -> re) (text : string)
    (variants : list (string * list re)) :
  List.In (first_label keep text variants) ("" :: map fst variants).
Proof.
  induction variants as [|[canonical patterns] rest IH]; simpl; [now left|].
  destruct (existsb _ patterns); [right; now left|].
  destruct IH as [IH | IH]; [now left | right; now right].
Qed.

Lemma match_threat_label (text : string) :
  List.In (_match_threat_in_text text) ("" :: CATEGORY_LABELS).
Proof. apply (first_label_in (fun pat => pat) text THREAT_VARIANTS). Qed.

Lemma returned_some (label x : string) : returned label = Some x -> x = label.
Proof. unfold returned. destruct (Str.truthy label); congruence. Qed.

Lemma first_some_source {A B : Type} (f : A -> option B) (l : list A) (y : B) :
  first_some f l = Some y -> exists x, List.In x l /\ f x = Some y.
Proof.
  induction l as [|x l IH]; simpl; [discriminate|].
  destruct (f x) as [z|] eqn:Hf.
  - intros [= <-]. exists x. split; [now left | assumption].
  - intro H. destruct (IH H) as [x' [Hin Hx]]. exists x'. split; [now right | assumption].
Qed.

Lemma status_in_row_label (tr : node) (label : string) :
  status_in_row tr = Some label -> List.In label ("" :: CATEGORY_LABELS).
Proof.
  unfold status_in_row. destruct (find_all tr "td" any) as [|td tds]; [discriminate|].
  destruct (existsb is_marker (td :: tds)); simpl; [|discriminate].
  destruct (returned (_match_threat_in_text _)) as [l|] eqn:Hr.
  - intros [= <-]. apply returned_some in Hr. subst l. apply match_threat_label.
  - intro H. apply returned_some in H. subst label. apply match_threat_label.
Qed.

Lemma find_status_in_table_label (table : node) :
  List.In (_find_status_in_table table) ("" :: CATEGORY_LABELS).
Proof.
  unfold _find_status_in_table. destruct (is_tag "table" table); simpl; [|now left].
  destruct (first_some status_in_row _) as [label|] eqn:H; simpl; [|now left].
  apply first_some_source in H. destruct H as [tr [_ H]].
  now apply status_in_row_label in H.
Qed.

Lemma status_in_next_siblings_label (sibs : list node) (n : Z) (label : string) :
  status_in_next_siblings sibs n = Some label ->
  List.In label ("" :: CATEGORY_LABELS).
Proof.
  revert n. induction sibs as [|sib sibs IH]; intro n; simpl; [discriminate|].
  destruct (is_tag "table" sib); simpl; [|apply IH].
  destruct (returned (_find_status_in_table sib)) as [l|] eqn:Hr.
  - intros [= <-]. apply returned_some in Hr. subst l.
    apply find_status_in_table_label.
  - destruct (4 <=? n + 1)%Z; [discriminate | apply IH].
Qed.

Lemma status_near_header_label (table : loc) (label : string) :
  status_near_header table = Some label ->
  List.In label ("" :: CATEGORY_LABELS).
Proof.
  unfold status_near_header.
  destruct (Str.contains "globally threatened species" _); [|discriminate].
  destruct (returned (_find_status_in_table (self table))) as [l|] eqn:Hr.
  - intros [= <-]. apply returned_some in Hr. subst l.
    apply find_status_in_table_label.
  - destruct (status_in_next_siblings (after table) 0) as [l|] eqn:Hs.
    + intros [= <-]. now apply status_in_next_siblings_label in Hs.
    + intro H. apply returned_some in H. subst label.
      apply (first_label_in _ _ THREAT_VARIANTS).
Qed.

Lemma find_threat_status_label (soup : node) :
  List.In (find_threat_status soup) ("" :: CATEGORY_LABELS).
Proof.
  unfold find_threat_status.
  destruct (first_some status_near_header _) as [l|] eqn:H.
  - apply first_some_source in H. destruct H as [t [_ H]].
    now apply status_near_header_label in H.
  - destruct (first_some (fun table => returned _) _) as [l|] eqn:H';
      simpl; [|now left].
    apply first_some_source in H'. destruct H' as [t [_ H']].
    apply returned_some in H'. subst l. apply find_status_in_table_label.
Qed.

Lemma rows_of_soup_split (soup : node) :
  rows_of_soup soup
  = attach (find_threat_status soup) (parse_big_blocks soup)
    ++ attach (find_threat_status soup) (parse_small_ffn_tables soup).
Proof. unfold rows_of_soup, attach. apply map_app. Qed.

(** The fields of a record made from a parser row with the status
    attached. *)
Lemma record_of_attached (species threat : string) (rows : list dict) (rec : dict) :
  List.In rec (records_of_rows species (attach threat rows)) ->
  exists r, List.In r rows /\ rec = r_out species (dict_set r "Threat_Status" threat).
Proof.
  intro H. destruct (records_of_rows_jpg _ _ _ H) as [r' [v [Hin [-> _]]]].
  unfold attach in Hin. apply in_map_iff in Hin. destruct Hin as [r [<- Hr]].
  now exists r.
Qed.

Lemma big_record_fields (species threat : string) (soup : node) (rec : dict) :
  List.In rec (records_of_rows species (attach threat (parse_big_blocks soup))) ->
  dict_get rec "Slide" = Some "" /\ dict_get rec "Threat_Status" = Some threat.
Proof.
  intro H. apply record_of_attached in H. destruct H as [r [Hr ->]].
  apply parse_big_blocks_rows in Hr.
  destruct Hr as [thumb [large [camera [location [stage [-> _]]]]]].
  split; reflexivity.
Qed.

Lemma small_record_fields (species threat : string) (soup : node) (rec : dict) :
  List.In rec (records_of_rows species (attach threat (parse_small_ffn_tables soup))) ->
  dict_get rec "Slide" = Some "Y" /\ dict_get rec "Equipment" = Some ""
  /\ dict_get rec "Threat_Status" = Some threat.
Proof.
  intro H. apply record_of_attached in H. destruct H as [r [Hr ->]].
  apply parse_small_ffn_tables_rows in Hr.
  destruct Hr as [thumb [large [location [stage [-> _]]]]].
  repeat split; reflexivity.
Qed.

Lemma soup_record_fields (species : string) (soup : node) (rec : dict) :
  List.In rec (records_of_rows species (rows_of_soup soup)) ->
  dict_get rec "Threat_Status" = Some (find_threat_status soup)
  /\ (dict_get rec "Slide" = Some ""
      \/ (dict_get rec "Slide" = Some "Y" /\ dict_get rec "Equipment" = Some "")).
Proof.
  rewrite rows_of_soup_split, records_of_rows_app. intro H.
  apply in_app_or in H. destruct H as [H | H].
  - apply big_record_fields in H. destruct H as [H1 H2]. split; [assumption | now left].
  - apply small_record_fields in H. destruct H as [H1 [H2 H3]].
    split; [assumption | now right].
Qed.

Lemma attached_row_status (threat : string) (rows : list dict) (r : dict) :
  List.In r (attach threat rows) -> dict_get r "Threat_Status" = Some threat.
Proof.
  unfold attach. intro H. apply in_map_iff in H. destruct H as [r0 [<- _]].
  unfold dict_get. induction r0 as [|[k x] r0 IH]; simpl.
  - reflexivity.
  - destruct (String.eqb k "Threat_Status") eqn:Hk; simpl; now rewrite Hk.
Qed.

(** C9. For every file there is one value, the empty string or one of the
    four canonical labels, that is the [Threat_Status] of every row that
    [parse_file] returns for the file and of every record that [main] makes
    of them; for a page it is [find_threat_status] of the page. *)
Theorem threat_status_uniform_per_file :
  (forall soup,
     List.In (find_threat_status soup) ("" :: CATEGORY_LABELS)
     /\ forall r, List.In r (rows_of_soup soup) ->
                  dict_get r "Threat_Status" = Some (find_threat_status soup))
  /\ (forall w path,
        exists t,
          List.In t [""; "Near-threatened"; "Vulnerable"; "Endangered";
                     "Critically Endangered"]
          /\ (forall r, List.In r (fst (parse_file w path)) ->
                        dict_get r "Threat_Status" = Some t)
          /\ (forall rec, List.In rec (fst (process_file w path)) ->
                          dict_get rec "Threat_Status" = Some t)).
Proof.
  split.
  - intro soup. split; [apply find_threat_status_label|].
    intros r H. unfold rows_of_soup in H. now apply attached_row_status in H.
  - intros w path.
    destruct (parse_file_rows w path) as [Hnil | [html Hrows]].
    + exists "". split; [now left|]. split.
      * rewrite Hnil. intros r [].
      * intros rec H. apply process_file_records in H. destruct H as [sp H].
        rewrite Hnil in H. destruct H.
    + exists (find_threat_status (BeautifulSoup w html)).
      split; [apply find_threat_status_label|]. split.
      * rewrite Hrows. intros r H. unfold rows_of_soup in H.
        now apply attached_row_status in H.
      * intros rec H. apply process_file_records in H. destruct H as [sp H].
        rewrite Hrows in H. now apply soup_record_fields in H.
Qed.

Lemma threat_status_uniform_per_file_witness :
  find_threat_status Sample.gallery = "Critically Endangered"
  /\ dict_get (nth 1 (rows_of_soup Sample.gallery) []) "Threat_Status"
     = Some "Critically Endangered"
  /\ exists t,
       List.In t ("" :: CATEGORY_LABELS)
       /\ dict_get (nth 0 (fst (parse_file Sample.world Sample.good_file)) [])
            "Threat_Status" = Some t
       /\ dict_get (nth 2 (fst (process_file Sample.world Sample.good_file)) [])
            "Threat_Status" = Some t.
Proof.
  destruct threat_status_uniform_per_file as [H1 H2].
  split; [vm_compute; reflexivity|]. split.
  - destruct (H1 Sample.gallery) as [_ H]. rewrite (H _); [reflexivity|].
    vm_compute. tauto.
  - destruct (H2 Sample.world Sample.good_file) as [t [Ht [Hr Hrec]]].
    exists t. split; [exact Ht|]. split.
    + apply Hr. vm_compute. tauto.
    + apply Hrec. vm_compute. tauto.
Defined.

(** ** The small-thumbnail flag *)

(** C10. The rows of [parse_big_blocks] carry the flag "", those of
    [parse_small_ffn_tables] the flag "Y" and an empty equipment text.  The
    records of a page are those of the big blocks followed by those of the
    ffn.gif cells: a record has [Slide] "Y" exactly when it is one of the
    latter, [Slide] is "" otherwise, and the records of the ffn.gif cells
    have an empty [Equipment].  Every record of a run has [Slide] "" or
    "Y". *)
Theorem slide_marks_ffn_records :
  (forall soup r,
     List.In r (parse_big_blocks soup) ->
     dict_get r "Is_Small_ffn_gif" = Some "")
  /\ (forall soup r,
        List.In r (parse_small_ffn_tables soup) ->
        dict_get r "Is_Small_ffn_gif" = Some "Y"
        /\ dict_get r "Camera_Equipment" = Some "")
  /\ (forall species soup,
        let threat := find_threat_status soup in
        let from_big :=
          records_of_rows species (attach threat (parse_big_blocks soup)) in
        let from_small :=
          records_of_rows species (attach threat (parse_small_ffn_tables soup)) in
        records_of_rows species (rows_of_soup soup) = from_big ++ from_small
        /\ (forall rec, List.In rec from_big -> dict_get rec "Slide" = Some "")
        /\ (forall rec, List.In rec from_small ->
              dict_get rec "Slide" = Some "Y"
              /\ dict_get rec "Equipment" = Some "")
        /\ (forall i rec,
              nth_error (records_of_rows species (rows_of_soup soup)) i = Some rec ->
              (dict_get rec "Slide" = Some "Y" <-> List.length from_big <= i)
              /\ (dict_get rec "Slide" = Some "" <-> i < List.length from_big)))
  /\ (forall w rec,
        List.In rec (main_records w) ->
        dict_get rec "Slide" = Some ""
        \/ (dict_get rec "Slide" = Some "Y" /\ dict_get rec "Equipment" = Some "")).
Proof.
  split; [|split; [|split]].
  - intros soup r H. apply parse_big_blocks_rows in H.
    destruct H as [thumb [large [camera [location [stage [-> _]]]]]]. reflexivity.
  - intros soup r H. apply parse_small_ffn_tables_rows in H.
    destruct H as [thumb [large [location [stage [-> _]]]]]. split; reflexivity.
  - intros species soup threat from_big from_small.
    assert (Hbig : forall rec, List.In rec from_big -> dict_get rec "Slide" = Some "").
    { intros rec H. now apply big_record_fields in H. }
    assert (Hsmall : forall rec, List.In rec from_small ->
              dict_get rec "Slide" = Some "Y" /\ dict_get rec "Equipment" = Some "").
    { intros rec H. apply small_record_fields in H. tauto. }
    assert (Hsplit : records_of_rows species (rows_of_soup soup) = from_big ++ from_small).
    { rewrite rows_of_soup_split. apply records_of_rows_app. }
    repeat split; try assumption; try (now apply Hsmall).
    + intro Hy. destruct (Nat.le_gt_cases (List.length from_big) i) as [Hle|Hlt];
        [assumption|].
      rewrite Hsplit, nth_error_app1 in H by assumption.
      apply nth_error_In, Hbig in H. congruence.
    + intro Hle. rewrite Hsplit, nth_error_app2 in H by assumption.
      now apply nth_error_In, Hsmall in H.
    + intro He. destruct (Nat.le_gt_cases (List.length from_big) i) as [Hle|Hlt];
        [|assumption].
      rewrite Hsplit, nth_error_app2 in H by assumption.
      apply nth_error_In, Hsmall in H. destruct H as [H _]. congruence.
    + intro Hlt. rewrite Hsplit, nth_error_app1 in H by assumption.
      now apply nth_error_In, Hbig in H.
  - intros w rec H. apply process_files_records in H. destruct H as [path [_ H]].
    apply process_file_records in H. destruct H as [species H].
    destruct (parse_file_rows w path) as [Hnil | [html Hrows]].
    + rewrite Hnil in H. destruct H.
    + rewrite Hrows in H. now apply soup_record_fields in H.
Qed.

Lemma slide_marks_ffn_records_witness :
  dict_get (nth 0 (parse_big_blocks Sample.gallery) []) "Is_Small_ffn_gif" = Some ""
  /\ dict_get (nth 1 (parse_small_ffn_tables Sample.gallery) []) "Camera_Equipment"
     = Some ""
  /\ (dict_get (nth 0 (records_of_rows "Grus_grus" (rows_of_soup Sample.gallery)) [])
        "Slide" = Some ""
      /\ dict_get (nth 2 (records_of_rows "Grus_grus" (rows_of_soup Sample.gallery)) [])
           "Slide" = Some "Y")
  /\ (dict_get (nth 1 (main_records Sample.world) []) "Slide" = Some ""
      \/ (dict_get (nth 1 (main_records Sample.world) []) "Slide" = Some "Y"
          /\ dict_get (nth 1 (main_records Sample.world) []) "Equipment" = Some "")).
Proof.
  destruct slide_marks_ffn_records as [H1 [H2 [H3 H4]]].
  split; [|split; [|split]].
  - apply (H1 Sample.gallery). vm_compute. tauto.
  - apply (H2 Sample.gallery). vm_compute. tauto.
  - destruct (H3 "Grus_grus" Sample.gallery) as [_ [_ [_ H]]]. split.
    + apply (H 0); [reflexivity | vm_compute; lia].
    + apply (H 2); [reflexivity | vm_compute; lia].
  - apply (H4 Sample.world). vm_compute. tauto.
Defined.

(** ** Reading files *)

Lemma process_files_app (w : env) (a b : list string) :
  process_files w (a ++ b)
  = (fst (process_files w a) ++ fst (process_files w b),
     snd (process_files w a) ++ snd (process_files w b)).
Proof.
  induction a as [|path a IH]; simpl.
  - now destruct (process_files w b).
  - rewrite IH. destruct (process_file w path) as [recs out].
    destruct (process_files w a) as [ra oa].
    destruct (process_files w b) as [rb ob]. simpl.
    now rewrite !app_assoc.
Qed.

Lemma unread_file_no_records (w : env) (path : string) :
  fst (read_html_file w path) = None -> fst (process_file w path) = [].
Proof.
  intro H. unfold process_file, parse_file.
  destruct (Str.startswith "Fotos_" _); [|reflexivity]. simpl.
  destruct (read_html_file w path) as [[html|] out]; [discriminate | reflexivity].
Qed.

(** C7. [read_html_file] returns the text read as UTF-8 when that read
    succeeds; on a [UnicodeDecodeError] it returns the text read as latin-1;
    when the first read fails otherwise, or the second read fails, it prints
    one "Error reading" line and returns [None].  [parse_file] then returns
    no rows, the file adds no records, and the records of the other files
    are what they are without it. *)
Theorem read_falls_back_then_skips (w : env) (path : string) :
  (forall text,
     open_read w path Utf8 = ReadOk text ->
     read_html_file w path = (Some text, []))
  /\ (forall e text,
        open_read w path Utf8 = UnicodeDecodeError e ->
        open_read w path Latin1 = ReadOk text ->
        read_html_file w path = (Some text, []))
  /\ (forall e,
        open_read w path Utf8 = OtherException e ->
        read_html_file w path = (None, [error_reading path e]))
  /\ (forall e e',
        open_read w path Utf8 = UnicodeDecodeError e ->
        open_read w path Latin1 = UnicodeDecodeError e'
        \/ open_read w path Latin1 = OtherException e' ->
        read_html_file w path = (None, [error_reading path e']))
  /\ (forall out,
        read_html_file w path = (None, out) ->
        (exists e, out = [error_reading path e])
        /\ parse_file w path = ([], out)
        /\ forall before_it after_it,
             fst (process_files w (before_it ++ path :: after_it))
             = fst (process_files w (before_it ++ after_it))).
Proof.
  split; [|split; [|split; [|split]]].
  - intros text H. unfold read_html_file. now rewrite H.
  - intros e text H1 H2. unfold read_html_file. now rewrite H1, H2.
  - intros e H. unfold read_html_file. now rewrite H.
  - intros e e' H1 [H2 | H2]; unfold read_html_file; now rewrite H1, H2.
  - intros out H. split; [|split].
    + unfold read_html_file in H.
      destruct (open_read w path Utf8) as [t|e|e].
      * discriminate.
      * destruct (open_read w path Latin1) as [t|e'|e'];
          [discriminate | | ]; injection H as <-; now exists e'.
      * injection H as <-. now exists e.
    + unfold parse_file. now rewrite H.
    + intros before_it after_it.
      change (path :: after_it) with ([path] ++ after_it).
      rewrite !process_files_app. simpl. f_equal.
      assert (Hskip : fst (process_file w path) = []).
      { apply unread_file_no_records. now rewrite H. }
      destruct (process_file w path) as [recs o]. simpl in *. now subst recs.
Qed.

Lemma read_falls_back_then_skips_witness :
  read_html_file Sample.world Sample.good_file = (Some "<html>", [])
  /\ read_html_file Sample.world Sample.bad_file
     = (None, ["Error reading /home/u/Gruiformes/Fotos_locked.html: Permission denied"])
  /\ parse_file Sample.world Sample.bad_file
     = ([], ["Error reading /home/u/Gruiformes/Fotos_locked.html: Permission denied"])
  /\ fst (process_files Sample.world [Sample.good_file; Sample.bad_file])
     = fst (process_files Sample.world [Sample.good_file]).
Proof.
  destruct (read_falls_back_then_skips Sample.world Sample.good_file)
    as [_ [Hfallback _]].
  destruct (read_falls_back_then_skips Sample.world Sample.bad_file)
    as [_ [_ [Hother [_ Hskip]]]].
  destruct (Hskip [error_reading Sample.bad_file "Permission denied"])
    as [_ [Hparse Hrest]]; [reflexivity|].
  split; [|split; [|split]].
  - apply (Hfallback "invalid start byte"); reflexivity.
  - apply Hother. reflexivity.
  - exact Hparse.
  - apply (Hrest [Sample.good_file] []).
Defined.

(** ** Runs of [main] *)

Lemma main_without_files (w : env) :
  input_files w = [] ->
  main w = Outcome 0
             ["No matching HTML files (Fotos_*.html) found in current folder."] [].
Proof. intro H. unfold main. now rewrite H. Qed.




Lemma is_big_image_table_iff_witness :
  is_big_image_table Sample.big = true
  /\ is_big_image_table Sample.camera = false.
Proof.
  split.
  - apply (proj2 (is_big_image_table_iff Sample.big)).
    split; [reflexivity|]. split; [reflexivity|]. split; [vm_compute; discriminate|].
    exists (Sample.img "t1.jpg"), "t1.jpg". vm_compute. tauto.
  - destruct (is_big_image_table Sample.camera) eqn:H; [|reflexivity].
    apply (proj1 (is_big_image_table_iff Sample.camera)) in H.
    destruct H as [_ [_ [H _]]]. vm_compute in H. now contradiction H.
Defined.

(** ** The model at work on the sample folder *)

Example compact_text_collapses :
  compact_text "  Adult
   male  " = "Adult male".
Proof. vm_compute. reflexivity. Qed.

Example int_reads_like_python :
  PyInt.int " +1_0 " = Some 10%Z /\ PyInt.int "-007" = Some (-7)%Z
  /\ PyInt.int "1__0" = None /\ PyInt.int "" = None /\ PyInt.int "9px" = None.
Proof. vm_compute. repeat split. Qed.

(** [int] skips a no-break space but refuses U+001F, which [str.strip]
    would remove; it refuses a literal of 4301 digits. *)
Example int_refuses_what_python_refuses :
  PyInt.int (String (ascii_of_nat 160) "9") = Some 9%Z
  /\ PyInt.int (String (ascii_of_nat 31) "9") = None
  /\ Str.strip (String (ascii_of_nat 31) "9") = "9"
  /\ PyInt.int (Str.of_chars (repeat "9"%char 4300)) <> None
  /\ PyInt.int (Str.of_chars (repeat "9"%char 4301)) = None.
Proof.
  split; [reflexivity|]. split; [reflexivity|]. split; [reflexivity|].
  split; [vm_compute; discriminate | vm_compute; reflexivity].
Qed.

(** A table whose [border] is U+001F followed by "9" is no big image
    block: [int] raises [ValueError] on it and the border counts as 0. *)
Example border_with_control_character :
  is_big_image_table
    (Tag "table" [("width", "800"); ("border", String (ascii_of_nat 31) "9")]
       [Tag "img" [("src", "crane.jpg")] []]) = false.
Proof. reflexivity. Qed.

Example splitext_keeps_inner_dots :
  Path.splitext_root "Fotos_Grus.grus.html" = "Fotos_Grus.grus"
  /\ Path.splitext_root ".hidden" = ".hidden"
  /\ Path.basename "/home/u/Gruiformes/Fotos_x.html" = "Fotos_x.html".
Proof. vm_compute. repeat split. Qed.

Example sample_big_rows :
  parse_big_blocks Sample.gallery
  = [ row "" "t1.jpg" "big1.jpg" "Canon 7D" "Laguna 2010" "Adult male" ].
Proof. vm_compute. reflexivity. Qed.

Example sample_small_rows :
  parse_small_ffn_tables Sample.gallery
  = [ row "Y" "s1.jpg" "l1.jpg" "" "Place A" "Adult male";
      row "Y" "s3.jpg" "" "" "Place B" "Adult male" ].
Proof. vm_compute. reflexivity. Qed.

Example sample_run_prints :
  printed (main Sample.world)
  = [ "Found 2 file(s) to process.";
      "Processing Fotos_Grus_grus.html (species: Grus_grus) ...";
      "Processing Fotos_locked.html (species: locked) ...";
      "Error reading /home/u/Gruiformes/Fotos_locked.html: Permission denied";
      "Wrote 3 rows to /home/u/Gruiformes/Gruiformes_Image_Listing.xlsx";
      "Excel structure: Row 1 (empty), Row 2 (headers), Row 3+ (data)" ].
Proof. vm_compute. reflexivity. Qed.

(** * Further properties of the script *)

(** ** Suffixes and [endswith_jpg] *)

Lemma starts_spec (p l : list ascii) :
  Str.starts p l = true <-> exists r, l = p ++ r.
Proof.
  revert l. induction p as [|a p IH]; intro l; simpl.
  - split; [intros _; now exists l | reflexivity].
  - destruct l as [|b l].
    + split; [discriminate | intros [r [=]]].
    + rewrite andb_true_iff, IH. split.
      * intros [Hab [r ->]]. apply Ascii.eqb_eq in Hab. subst b. now exists r.
      * intros [r [= -> ->]]. split; [apply Ascii.eqb_refl | now exists r].
Qed.

Lemma endswith_spec (p s : string) :
  Str.endswith p s = true <-> exists stem, s = (stem ++ p)%string.
Proof.
  unfold Str.endswith. rewrite starts_spec. split.
  - intros [r H]. exists (Str.of_chars (rev r)).
    rewrite <- (of_chars_chars s), <- (rev_involutive (Str.chars s)), H.
    rewrite rev_app_distr, rev_involutive.
    rewrite <- (of_chars_chars (Str.of_chars (rev r) ++ p)), chars_append.
    now rewrite chars_of_chars.
  - intros [stem ->]. exists (rev (Str.chars stem)).
    now rewrite chars_append, rev_app_distr.
Qed.

(** X1. [endswith_jpg] accepts exactly the values that are some text
    followed by ".jpg"; [None] and every other text are refused. *)
Theorem endswith_jpg_iff_stem (value : option string) :
  endswith_jpg value = true <->
  exists stem, value = Some (stem ++ ".jpg")%string.
Proof.
  rewrite endswith_jpg_spec. split.
  - intros [v [-> H]]. apply endswith_spec in H. destruct H as [stem ->].
    now exists stem.
  - intros [stem ->]. exists (stem ++ ".jpg")%string. split; [reflexivity|].
    apply endswith_spec. now exists stem.
Qed.

(** ** [compact_text] *)

Lemma collapse_single_spaced (in_run : bool) (l : list ascii) :
  single_spaced (Str.collapse_from in_run l) = true
  /\ (in_run = true -> no_space_head (Str.collapse_from in_run l) = true).
Proof.
  revert in_run. induction l as [|c r IH]; intro in_run; simpl; [now split|].
  destruct (Chr.is_space c) eqn:Hc.
  - destruct in_run.
    + apply IH.
    + destruct (IH true) as [H1 H2]. split; [|discriminate].
      simpl. rewrite H1, andb_true_r. exact (H2 eq_refl).
  - destruct (IH false) as [H1 _]. split.
    + simpl. now rewrite Hc, H1.
    + intros _. simpl. now rewrite Hc.
Qed.

Lemma lstrip_suffix (p : ascii -> bool) (l : list ascii) :
  exists d, l = d ++ Str.lstrip_by p l.
Proof.
  induction l as [|c r [d IH]]; simpl; [now exists []|].
  destruct (p c).
  - exists (c :: d). simpl. now f_equal.
  - now exists [].
Qed.

Lemma lstrip_head (l : list ascii) :
  no_space_head (Str.lstrip_by Chr.is_space l) = true.
Proof.
  induction l as [|c r IH]; simpl; [reflexivity|].
  destruct (Chr.is_space c) eqn:Hc; [exact IH|]. simpl. now rewrite Hc.
Qed.

Lemma lstrip_fixed (l : list ascii) :
  no_space_head l = true -> Str.lstrip_by Chr.is_space l = l.
Proof.
  destruct l as [|c r]; simpl; [reflexivity|].
  intro H. apply negb_true_iff in H. now rewrite H.
Qed.

Lemma single_spaced_app (a b : list ascii) :
  single_spaced (a ++ b) = true ->
  single_spaced a = true /\ single_spaced b = true.
Proof.
  induction a as [|c a IH]; simpl; [now split|].
  intro H. apply andb_true_iff in H. destruct H as [Hc Hr].
  destruct (IH Hr) as [Ha Hb]. split; [|assumption].
  rewrite Ha, andb_true_r. apply orb_true_iff in Hc.
  apply orb_true_iff. destruct Hc as [Hc | Hc]; [now left | right].
  apply andb_true_iff in Hc. destruct Hc as [Hs Hn]. rewrite Hs. simpl.
  destruct a as [|d a]; [reflexivity | exact Hn].
Qed.

Lemma rstrip_prefix (p : ascii -> bool) (l : list ascii) :
  exists d, l = Str.rstrip_by p l ++ d.
Proof.
  unfold Str.rstrip_by. destruct (lstrip_suffix p (rev l)) as [d H].
  exists (rev d). rewrite <- rev_app_distr, <- H. symmetry. apply rev_involutive.
Qed.

Lemma rstrip_fixed (l : list ascii) :
  no_space_head (rev l) = true -> Str.rstrip_by Chr.is_space l = l.
Proof.
  intro H. unfold Str.rstrip_by. rewrite lstrip_fixed by assumption.
  apply rev_involutive.
Qed.

Lemma prefix_head (a d : list ascii) :
  no_space_head (a ++ d) = true -> no_space_head a = true.
Proof. destruct a; [reflexivity | simpl; trivial]. Qed.

Lemma collapse_fixed (in_run : bool) (l : list ascii) :
  single_spaced l = true ->
  (in_run = true -> no_space_head l = true) ->
  Str.collapse_from in_run l = l.
Proof.
  revert in_run. induction l as [|c r IH]; intros in_run Hs Hh; simpl;
    [reflexivity|].
  simpl in Hs. apply andb_true_iff in Hs. destruct Hs as [Hc Hr].
  destruct (Chr.is_space c) eqn:Hsp; simpl in Hc.
  - apply andb_true_iff in Hc. destruct Hc as [He Hn].
    apply Ascii.eqb_eq in He. subst c.
    destruct in_run.
    + specialize (Hh eq_refl). unfold no_space_head in Hh.
      rewrite Hsp in Hh. discriminate.
    + f_equal. apply IH; [assumption|]. intros _.
      destruct r; [reflexivity | exact Hn].
  - f_equal. apply IH; [assumption | discriminate].
Qed.

(** The characters of [compact_text s] are in normal form. *)
Lemma compact_text_normal (s : string) :
  let t := Str.chars (compact_text s) in
  single_spaced t = true /\ no_space_head t = true
  /\ no_space_head (rev t) = true.
Proof.
  unfold compact_text. destruct (Str.truthy s); simpl; [|now repeat split].
  unfold Str.strip. rewrite !chars_of_chars.
  set (c := Str.collapse_ws (Str.chars s)).
  set (m := Str.lstrip_by Chr.is_space c).
  assert (Hc : single_spaced c = true) by apply collapse_single_spaced.
  assert (Hm : single_spaced m = true).
  { destruct (lstrip_suffix Chr.is_space c) as [d Hd]. fold m in Hd.
    rewrite Hd in Hc. now apply single_spaced_app in Hc. }
  destruct (rstrip_prefix Chr.is_space m) as [d Hd].
  split; [|split].
  - rewrite Hd in Hm. now apply single_spaced_app in Hm.
  - apply (prefix_head _ d). rewrite <- Hd. apply lstrip_head.
  - unfold Str.rstrip_by. rewrite rev_involutive. apply lstrip_head.
Qed.

Lemma normal_no_double_space (l : list ascii) :
  single_spaced l = true -> Str.contains_chars [" "; " "]%char l = false.
Proof.
  induction l as [|c r IH]; intro H; [reflexivity|].
  simpl in H. apply andb_true_iff in H. destruct H as [Hc Hr].
  cbn [Str.contains_chars]. rewrite (IH Hr), orb_false_r.
  destruct (Str.starts [" "; " "]%char (c :: r)) eqn:Hs; [|reflexivity].
  apply starts_spec in Hs. destruct Hs as [x Hx]. injection Hx as -> ->.
  simpl in Hc. discriminate.
Qed.

(** X2. The result of [compact_text] is in normal form: compacting it
    again or stripping it changes nothing, its only white-space character is
    the space, and it has no two spaces in a row. *)
Theorem compact_text_normal_form (s : string) :
  compact_text (compact_text s) = compact_text s
  /\ Str.strip (compact_text s) = compact_text s
  /\ (forall c, List.In c (Str.chars (compact_text s)) ->
        Chr.is_space c = true -> c = " "%char)
  /\ Str.contains "  " (compact_text s) = false.
Proof.
  destruct (compact_text_normal s) as [Hs [Hh Hl]].
  set (t := compact_text s) in *.
  assert (Hstrip : Str.strip t = t).
  { unfold Str.strip. rewrite lstrip_fixed, rstrip_fixed by assumption.
    apply of_chars_chars. }
  split; [|split; [exact Hstrip|split]].
  - unfold compact_text at 1. destruct (Str.truthy t) eqn:Ht; simpl.
    + unfold Str.collapse_ws. rewrite collapse_fixed, of_chars_chars;
        [exact Hstrip | assumption | discriminate].
    + destruct t; [reflexivity | discriminate].
  - clear Hh Hl Hstrip. induction (Str.chars t) as [|d r IH]; intros c Hin Hc;
      [destruct Hin|].
    simpl in Hs. apply andb_true_iff in Hs. destruct Hs as [Hd Hr].
    destruct Hin as [<- | Hin]; [|now apply IH].
    rewrite Hc in Hd. simpl in Hd. apply andb_true_iff in Hd.
    destruct Hd as [He _]. now apply Ascii.eqb_eq in He.
  - unfold Str.contains. now apply normal_no_double_space.
Qed.

(** ** The first image and its anchor *)

Lemma find_some_in (n : node) (name : string) (ok : node -> bool) (d : node) :
  find n name ok = Some d ->
  List.In d (descendants n) /\ is_tag name d = true /\ ok d = true.
Proof.
  unfold find, find_all. intro H.
  destruct (filter _ (descendants n)) as [|x l] eqn:Hf; [discriminate|].
  injection H as ->.
  assert (Hin : List.In d (filter (fun d => is_tag name d && ok d) (descendants n)))
    by (rewrite Hf; now left).
  apply filter_In in Hin. destruct Hin as [Hin Hok].
  apply andb_true_iff in Hok. tauto.
Qed.

(** Induction on a tree, with the property at hand for every child. *)
Lemma node_tree_ind (P : node -> Prop) :
  (forall name attrs children,
     Forall P children -> P (Tag name attrs children)) ->
  (forall s, P (NavigableString s)) ->
  (forall s, P (Comment s)) ->
  forall n, P n.
Proof.
  intros HT HS HC.
  refine (fix F (n : node) : P n :=
            match n with
            | Tag name attrs cs =>
                HT name attrs cs
                  ((fix G (l : list node) : Forall P l :=
                      match l with
                      | [] => Forall_nil P
                      | c :: r => Forall_cons c (F c) (G r)
                      end) cs)
            | NavigableString s => HS s
            | Comment s => HC s
            end).
Qed.

(** The descendants of a tag are its children, each followed by its own
    descendants. *)
Lemma located_tag (name : string) (attrs : list (string * string))
    (children : list node) :
  descendants (Tag name attrs children)
  = flat_map (fun c => c :: descendants c) children.
Proof.
  unfold descendants. simpl. generalize (@nil node) as prev.
  induction children as [|c cs IH]; intro prev; simpl; [reflexivity|].
  rewrite map_app. f_equal. f_equal. apply IH.
Qed.

Lemma descendants_trans (t a i : node) :
  List.In a (descendants t) -> List.In i (descendants a) ->
  List.In i (descendants t).
Proof.
  revert a i. induction t as [name attrs cs IH| |] using node_tree_ind;
    intros a i Ha Hi; [|destruct Ha | destruct Ha].
  rewrite located_tag in *. apply in_flat_map in Ha.
  destruct Ha as [c [Hc Ha]]. apply in_flat_map. exists c. split; [assumption|].
  right. destruct Ha as [<- | Ha]; [assumption|].
  rewrite Forall_forall in IH. now apply (IH c Hc a i).
Qed.

(** X3. [extract_first_img_and_anchor] returns a large file only together
    with a thumbnail.  The thumbnail, when there is one, ends in ".jpg" and
    is the [src] of an [img] inside the table; the large file, when there is
    one, ends in ".jpg" and is the [href] of an [a] inside the table that
    wraps the [img] of the thumbnail. *)
Theorem extract_first_img_and_anchor_sound (table : node) :
  let thumb := fst (extract_first_img_and_anchor table) in
  let large := snd (extract_first_img_and_anchor table) in
  (thumb = None -> large = None)
  /\ (forall v, thumb = Some v ->
        Str.endswith ".jpg" v = true
        /\ exists i, List.In i (descendants table) /\ is_tag "img" i = true
                     /\ get i "src" = Some v)
  /\ (forall h, large = Some h ->
        Str.endswith ".jpg" h = true
        /\ exists a i,
             List.In a (descendants table) /\ is_tag "a" a = true
             /\ get a "href" = Some h
             /\ List.In i (descendants a) /\ is_tag "img" i = true
             /\ get i "src" = thumb).
Proof.
  unfold extract_first_img_and_anchor.
  set (fallback :=
    match find table "img" (has_attr "src") with
    | Some img_tag =>
        if endswith_jpg (get img_tag "src") then (get img_tag "src", None)
        else (None, None)
    | None => (@None string, @None string)
    end).
  assert (Hfb :
    (fst fallback = None -> snd fallback = None)
    /\ (forall v, fst fallback = Some v ->
          Str.endswith ".jpg" v = true
          /\ exists i, List.In i (descendants table) /\ is_tag "img" i = true
                       /\ get i "src" = Some v)
    /\ (forall h, snd fallback = Some h ->
          Str.endswith ".jpg" h = true
          /\ exists a i,
               List.In a (descendants table) /\ is_tag "a" a = true
               /\ get a "href" = Some h
               /\ List.In i (descendants a) /\ is_tag "img" i = true
               /\ get i "src" = fst fallback)).
  { unfold fallback.
    destruct (find table "img" (has_attr "src")) as [i|] eqn:Hi;
      [|simpl; repeat split; discriminate].
    destruct (endswith_jpg (get i "src")) eqn:Hj;
      [|simpl; repeat split; discriminate].
    simpl. split; [reflexivity|]. split; [|discriminate].
    intros v Hv. apply endswith_jpg_spec in Hj. destruct Hj as [v' [Hs He]].
    rewrite Hs in Hv. injection Hv as <-. split; [assumption|].
    destruct (find_some_in _ _ _ _ Hi) as [Hin [Ht _]]. now exists i. }
  destruct (find table "a" (has_attr "href")) as [a|] eqn:Ha; [|exact Hfb].
  destruct (find a "img" (has_attr "src")) as [i|] eqn:Hi; [|exact Hfb].
  destruct (endswith_jpg (get i "src")) eqn:Hj; [|exact Hfb].
  clear Hfb fallback. simpl.
  apply endswith_jpg_spec in Hj. destruct Hj as [v [Hs He]].
  destruct (find_some_in _ _ _ _ Ha) as [Hina [Hta _]].
  destruct (find_some_in _ _ _ _ Hi) as [Hini [Hti _]].
  split; [rewrite Hs; discriminate|]. split.
  - intros v' Hv. rewrite Hs in Hv. injection Hv as <-. split; [assumption|].
    exists i. repeat split; try assumption.
    now apply (descendants_trans table a i).
  - intros h Hh. destruct (endswith_jpg (get a "href")) eqn:Hl; [|discriminate].
    apply endswith_jpg_spec in Hl. destruct Hl as [h' [Hs' He']].
    rewrite Hs' in Hh. injection Hh as <-. split; [assumption|].
    exists a, i. repeat split; assumption.
Qed.

Lemma extract_first_img_and_anchor_sound_witness :
  Str.endswith ".jpg" "t1.jpg" = true /\ Str.endswith ".jpg" "big1.jpg" = true.
Proof.
  destruct (extract_first_img_and_anchor_sound Sample.big) as [_ [Ht Hl]].
  split.
  - apply (Ht "t1.jpg"). reflexivity.
  - apply (Hl "big1.jpg"). reflexivity.
Defined.

(** ** The text tables after a big image block *)

Lemma text_table_not_big (sib : node) :
  attr_is sib "border" "1" = true -> is_big_image_table sib = false.
Proof.
  intro H. unfold attr_is in H.
  destruct (get sib "border") as [b|] eqn:Hb; [|discriminate].
  apply String.eqb_eq in H. subst b.
  unfold is_big_image_table, get_or. rewrite Hb.
  destruct (is_tag "table" sib); [|reflexivity].
  destruct (attr_is sib "width" "800"); reflexivity.
Qed.

Lemma is_text_table_hit (sib : node) :
  is_tag "table" sib = true ->
  is_text_table sib = attr_is sib "width" "800" && attr_is sib "border" "1".
Proof. intro H. unfold is_text_table. now rewrite H. Qed.

Lemma firstn_full {A : Type} (n : nat) (a b : list A) :
  n <= List.length a -> firstn n (a ++ b) = firstn n a.
Proof.
  intro H. rewrite firstn_app. replace (n - List.length a) with 0 by lia.
  simpl. apply app_nil_r.
Qed.

Lemma following_loop_spec (sibs : list node) (results : list string)
    (max_tables : Z) :
  (Z.of_nat (List.length results) < max_tables)%Z ->
  following_loop sibs results max_tables
  = firstn (Z.to_nat max_tables)
      (results ++ map text_of (filter is_text_table (until_big sibs))).
Proof.
  revert results. induction sibs as [|sib rest IH]; intros results Hlen;
    cbn [following_loop until_big].
  - simpl. rewrite app_nil_r. symmetry. apply firstn_all2. lia.
  - destruct (is_tag "table" sib) eqn:Ht; cbn [negb].
    + pose proof (is_text_table_hit sib Ht) as Htt.
      destruct (attr_is sib "width" "800" && attr_is sib "border" "1") eqn:Hhit.
      * assert (Hbig : is_big_image_table sib = false).
        { apply text_table_not_big. apply andb_true_iff in Hhit. tauto. }
        rewrite Hbig. cbn [filter andb]. rewrite Htt. cbn [map].
        replace (results ++ text_of sib :: map text_of
                   (filter is_text_table (until_big rest)))
          with ((results ++ [text_of sib])
                  ++ map text_of (filter is_text_table (until_big rest)))
          by (now rewrite <- app_assoc).
        destruct (Z.leb_spec max_tables
                    (Z.of_nat (List.length (results ++ [text_of sib]))))
          as [Hfull|Hmore].
        -- rewrite firstn_full by lia. symmetry. apply firstn_all2.
           rewrite length_app in *. simpl in *. lia.
        -- now apply IH.
      * cbn [andb]. destruct (is_big_image_table sib) eqn:Hbig.
        -- simpl. rewrite app_nil_r. symmetry. apply firstn_all2. lia.
        -- cbn [filter]. rewrite Htt. now apply IH.
    + assert (Hbig : is_big_image_table sib = false)
        by (unfold is_big_image_table; now rewrite Ht).
      rewrite Hbig. cbn [filter]. unfold is_text_table at 1. rewrite Ht.
      cbn [andb]. now apply IH.
Qed.

Lemma following_loop_nonpositive (sibs : list node) (max_tables : Z) :
  (max_tables <= 0)%Z ->
  following_loop sibs [] max_tables
  = firstn 1 (map text_of (filter is_text_table (until_big sibs))).
Proof.
  intro Hmax. induction sibs as [|sib rest IH]; cbn [following_loop until_big];
    [reflexivity|].
  destruct (is_tag "table" sib) eqn:Ht; cbn [negb].
  - pose proof (is_text_table_hit sib Ht) as Htt.
    destruct (attr_is sib "width" "800" && attr_is sib "border" "1") eqn:Hhit.
    + assert (Hbig : is_big_image_table sib = false).
      { apply text_table_not_big. apply andb_true_iff in Hhit. tauto. }
      rewrite Hbig. cbn [filter andb]. rewrite Htt. cbn [map app].
      destruct (Z.leb_spec max_tables (Z.of_nat (List.length [text_of sib])));
        [reflexivity | simpl in *; lia].
    + cbn [andb]. destruct (is_big_image_table sib) eqn:Hbig; [reflexivity|].
      cbn [filter]. rewrite Htt. exact IH.
  - assert (Hbig : is_big_image_table sib = false)
      by (unfold is_big_image_table; now rewrite Ht).
    rewrite Hbig. cbn [filter]. unfold is_text_table at 1. rewrite Ht.
    cbn [andb]. exact IH.
Qed.

(** X4. [find_following_800_text_tables] returns, in document order, the
    texts of the first [max_tables] next siblings that are tables with
    [width] "800" and [border] "1" and that come before the next big image
    block; a limit below 1 still lets one text through.  So a block never
    takes the equipment or location text of a later block. *)
Theorem find_following_800_text_tables_spec (start_tbl : loc) (max_tables : Z) :
  find_following_800_text_tables start_tbl max_tables
  = firstn (Z.to_nat (Z.max 1 max_tables))
      (map text_of (filter is_text_table (until_big (after start_tbl)))).
Proof.
  unfold find_following_800_text_tables.
  destruct (Z.le_gt_cases max_tables 0) as [Hle | Hgt].
  - rewrite following_loop_nonpositive by assumption.
    now replace (Z.max 1 max_tables) with 1%Z by lia.
  - rewrite following_loop_spec by (simpl; lia).
    now replace (Z.max 1 max_tables) with max_tables by lia.
Qed.

(** ** Siblings that are no tables *)

(** X5. The three loops over siblings see tables only: strings, comments
    and other tags between the tables neither count towards a limit nor
    stop a loop, so dropping them changes no result. *)
Theorem sibling_loops_see_tables_only (sibs : list node) :
  (forall count max_lookback_tables,
     stage_lookback (filter (is_tag "table") sibs) count max_lookback_tables
     = stage_lookback sibs count max_lookback_tables)
  /\ (forall results max_tables,
        following_loop (filter (is_tag "table") sibs) results max_tables
        = following_loop sibs results max_tables)
  /\ (forall sib_count,
        status_in_next_siblings (filter (is_tag "table") sibs) sib_count
        = status_in_next_siblings sibs sib_count).
Proof.
  split; [|split].
  - induction sibs as [|sib rest IH]; intros count m; [reflexivity|].
    cbn [filter stage_lookback]. destruct (is_tag "table" sib) eqn:Ht;
      cbn [negb]; [|apply IH].
    cbn [stage_lookback]. rewrite Ht. cbn [negb].
    destruct (is_big_image_table sib); [reflexivity|].
    destruct (_looks_like_stage_table sib); [reflexivity|].
    destruct (m <=? count + 1)%Z; [reflexivity | apply IH].
  - induction sibs as [|sib rest IH]; intros results m; [reflexivity|].
    cbn [filter following_loop]. destruct (is_tag "table" sib) eqn:Ht;
      cbn [negb]; [|apply IH].
    cbn [following_loop]. rewrite Ht. cbn [negb].
    destruct (attr_is sib "width" "800" && attr_is sib "border" "1");
      cbn [andb].
    + destruct (m <=? Z.of_nat (List.length (results ++ [text_of sib])))%Z;
        [reflexivity|].
      destruct (is_big_image_table sib); [reflexivity | apply IH].
    + destruct (is_big_image_table sib); [reflexivity | apply IH].
  - induction sibs as [|sib rest IH]; intro n; [reflexivity|].
    cbn [filter status_in_next_siblings]. destruct (is_tag "table" sib) eqn:Ht;
      cbn [negb]; [|apply IH].
    cbn [status_in_next_siblings]. rewrite Ht. cbn [negb].
    destruct (returned (_find_status_in_table sib)); [reflexivity|].
    destruct (4 <=? n + 1)%Z; [reflexivity | apply IH].
Qed.

(** ** The fields of rows and records *)

Lemma stage_label_is_stage_text (start_tbl : loc) (max_lookback_tables : Z) :
  find_stage_tag_near_table start_tbl max_lookback_tables = ""
  \/ stage_text (find_stage_tag_near_table start_tbl max_lookback_tables) = true.
Proof.
  unfold find_stage_tag_near_table.
  destruct (stage_lookback_source (before start_tbl) 0 max_lookback_tables)
    as [He | [i [sib [_ [_ [Hl [Hr _]]]]]]]; [now left|].
  right. rewrite Hr. unfold _looks_like_stage_table in Hl. unfold stage_text.
  destruct (is_tag "table" sib); [|discriminate]. cbn [negb] in Hl.
  destruct (existsb (fun kw => Str.contains kw (Str.lower (text_of sib)))
              STAGE_KEYWORDS); [|discriminate]. cbn [negb] in Hl.
  destruct (existsb Chr.is_digit (Str.chars (text_of sib))); [discriminate|].
  destruct (Nat.ltb_spec 120 (String.length (text_of sib))) as [Hlt|Hle];
    [discriminate|].
  cbn [negb andb]. apply Nat.leb_le. exact Hle.
Qed.

Lemma or_empty_jpg (x : option string) :
  x = None \/ endswith_jpg x = true ->
  or_empty x = "" \/ Str.endswith ".jpg" (or_empty x) = true.
Proof.
  intros [-> | H]; [now left|]. right.
  apply endswith_jpg_spec in H. destruct H as [v [-> H]]. exact H.
Qed.

Lemma extract_large_is_jpg (table : node) :
  snd (extract_first_img_and_anchor table) = None
  \/ endswith_jpg (snd (extract_first_img_and_anchor table)) = true.
Proof.
  unfold extract_first_img_and_anchor.
  assert (Hfb :
    forall p,
      p = match find table "img" (has_attr "src") with
          | Some img_tag =>
              if endswith_jpg (get img_tag "src")
              then (get img_tag "src", @None string)
              else (None, None)
          | None => (None, None)
          end ->
      snd p = None \/ endswith_jpg (snd p) = true).
  { intros p ->. destruct (find table "img" (has_attr "src")) as [i|]; [|now left].
    destruct (endswith_jpg (get i "src")); now left. }
  destruct (find table "a" (has_attr "href")) as [a|]; [|now apply Hfb].
  destruct (find a "img" (has_attr "src")) as [i|]; [|now apply Hfb].
  destruct (endswith_jpg (get i "src")); [|now apply Hfb].
  simpl. destruct (endswith_jpg (get a "href")) eqn:H; [now right | now left].
Qed.

(** Where a row of [parse_big_blocks] comes from. *)
Lemma big_row_source (soup : node) (r : dict) :
  List.In r (parse_big_blocks soup) ->
  exists tbl thumb large,
    List.In tbl (find_all_located soup "table")
    /\ is_big_image_table (self tbl) = true
    /\ r = row "" thumb large
             (nth 0 (find_following_800_text_tables tbl 2) "")
             (nth 1 (find_following_800_text_tables tbl 2) "")
             (find_stage_tag_near_table tbl 3)
    /\ endswith_jpg (Some thumb) = true
    /\ (large = "" \/ Str.endswith ".jpg" large = true).
Proof.
  unfold parse_big_blocks. intro H. apply in_flat_map in H.
  destruct H as [tbl [Hin H]].
  destruct (is_big_image_table (self tbl)) eqn:Hbig; simpl in H; [|destruct H].
  pose proof (extract_thumb_is_jpg (self tbl)) as Hjpg.
  pose proof (or_empty_jpg _ (extract_large_is_jpg (self tbl))) as Hlarge.
  destruct (extract_first_img_and_anchor (self tbl)) as [thumb large].
  simpl in Hjpg, Hlarge.
  destruct (falsy thumb) eqn:Hf; [destruct H|].
  destruct (falsy_false _ Hf) as [v [-> Hv]].
  destruct H as [<- | []]. simpl.
  destruct Hjpg as [Hn | Hj]; [discriminate|].
  exists tbl, v, (or_empty large). repeat split; assumption.
Qed.

Lemma ffn_row_cells_source (tds : list node) (ptr : nat) (last : list string)
    (stage : string) (r : dict) :
  List.In r (ffn_row_cells tds ptr last stage) ->
  exists td thumb large location,
    List.In td tds
    /\ Str.contains "ffn.gif" (get_or td "background" "") = true
    /\ r = row "Y" thumb large "" location stage
    /\ endswith_jpg (Some thumb) = true
    /\ (large = "" \/ Str.endswith ".jpg" large = true)
    /\ (location = "" \/ List.In location last).
Proof.
  revert ptr. induction tds as [|td tds IH]; intros ptr H; simpl in H;
    [destruct H|].
  apply in_app_or in H. destruct H as [H | H].
  - destruct (Str.contains "ffn.gif" (get_or td "background" "")) eqn:Hbg;
      [|destruct H].
    destruct (find td "img" (has_attr "src")) as [i|]; [|destruct H].
    destruct (endswith_jpg (get i "src")) eqn:Hj; [|destruct H].
    destruct (falsy (get i "src")) eqn:Hf; [destruct H|].
    destruct (falsy_false _ Hf) as [v [Hv Hv']].
    destruct H as [<- | []]. rewrite Hv'. rewrite Hv in Hj.
    eexists td, v, _, _. split; [now left|]. split; [assumption|].
    split; [reflexivity|]. split; [assumption|]. split.
    + apply or_empty_jpg.
      destruct (find td "a" (has_attr "href")) as [a|]; [|now left].
      destruct (endswith_jpg (get a "href")) eqn:Ha; [now right | now left].
    + destruct (nth_in_or_default ptr last ""%string) as [Hin | ->];
        [now right | now left].
  - destruct (IH _ H) as [td' [thumb [large [location [Hin Hrest]]]]].
    exists td', thumb, large, location. split; [now right | exact Hrest].
Qed.

Lemma ffn_table_rows_source (trs : list node) (last : list string)
    (stage : string) (r : dict) :
  List.In r (ffn_table_rows trs last stage) ->
  exists thumb large location,
    r = row "Y" thumb large "" location stage
    /\ endswith_jpg (Some thumb) = true
    /\ (large = "" \/ Str.endswith ".jpg" large = true).
Proof.
  revert last. induction trs as [|tr trs IH]; intros last H; simpl in H;
    [destruct H|].
  destruct (existsb has_ffn_background (find_all tr "td" any)); simpl in H.
  - apply in_app_or in H. destruct H as [H | H]; [|now apply IH in H].
    apply ffn_row_cells_source in H.
    destruct H as [td [thumb [large [location [_ [_ [Hr [Hj [Hl _]]]]]]]]].
    now exists thumb, large, location.
  - now apply IH in H.
Qed.

(** Where a row of [parse_small_ffn_tables] comes from. *)
Lemma small_row_source (soup : node) (r : dict) :
  List.In r (parse_small_ffn_tables soup) ->
  exists tbl thumb large location,
    List.In tbl (find_all_located soup "table")
    /\ find_all (self tbl) "td" has_ffn_background <> []
    /\ r = row "Y" thumb large "" location (find_stage_tag_near_table tbl 3)
    /\ endswith_jpg (Some thumb) = true
    /\ (large = "" \/ Str.endswith ".jpg" large = true).
Proof.
  unfold parse_small_ffn_tables. intro H. apply in_flat_map in H.
  destruct H as [tbl [Hin H]].
  destruct (find_all (self tbl) "td" has_ffn_background) eqn:Hf; [destruct H|].
  apply ffn_table_rows_source in H.
  destruct H as [thumb [large [location [Hr [Hj Hl]]]]].
  exists tbl, thumb, large, location.
  split; [assumption|]. split; [rewrite Hf; discriminate|].
  split; [assumption|]. split; assumption.
Qed.

Lemma insert_sorted_permutation (s : string) (l : list string) :
  Permutation (Str.insert_sorted s l) (s :: l).
Proof.
  induction l as [|t r IH]; simpl; [apply Permutation_refl|].
  destruct (Str.leb (Str.chars s) (Str.chars t)); [apply Permutation_refl|].
  apply perm_trans with (t :: s :: r); [now apply perm_skip | apply perm_swap].
Qed.

Lemma sorted_permutation (l : list string) : Permutation (Str.sorted l) l.
Proof.
  induction l as [|s l IH]; simpl; [apply perm_nil|].
  apply perm_trans with (s :: Str.sorted l);
    [apply insert_sorted_permutation | now apply perm_skip].
Qed.

(** Every record of a run is made of a row of one of the two parsers of
    some page, with the status of that page attached. *)
Lemma main_record_source (w : env) (rec : dict) :
  List.In rec (main_records w) ->
  exists path species soup r,
    List.In path (input_files w)
    /\ rec = r_out species (dict_set r "Threat_Status" (find_threat_status soup))
    /\ (List.In r (parse_big_blocks soup)
        \/ List.In r (parse_small_ffn_tables soup)).
Proof.
  intro H. apply process_files_records in H. destruct H as [path [Hp H]].
  apply process_file_records in H. destruct H as [species H].
  destruct (parse_file_rows w path) as [Hnil | [html Hrows]];
    [rewrite Hnil in H; destruct H|].
  rewrite Hrows, rows_of_soup_split, records_of_rows_app in H.
  exists path, species, (BeautifulSoup w html).
  apply in_app_or in H. destruct H as [H | H];
    apply record_of_attached in H; destruct H as [r [Hr ->]]; exists r.
  - split; [|split; [reflexivity | now left]].
    exact (Permutation_in _ (sorted_permutation _) Hp).
  - split; [|split; [reflexivity | now right]].
    exact (Permutation_in _ (sorted_permutation _) Hp).
Qed.

(** X6. The large file of every row of both parsers, and the
    [Large_Filename] of every record of a run, is empty or ends in
    ".jpg": an anchor that leads elsewhere is left out, not copied. *)
Theorem large_filenames_empty_or_jpg :
  (forall soup r,
     List.In r (parse_big_blocks soup ++ parse_small_ffn_tables soup) ->
     exists v, dict_get r "Large_File" = Some v
               /\ (v = "" \/ Str.endswith ".jpg" v = true))
  /\ (forall w rec,
        List.In rec (main_records w) ->
        exists v, dict_get rec "Large_Filename" = Some v
                  /\ (v = "" \/ Str.endswith ".jpg" v = true)).
Proof.
  assert (Hrow : forall soup r,
            List.In r (parse_big_blocks soup) \/ List.In r (parse_small_ffn_tables soup) ->
            exists is_small thumb large camera location stage,
              r = row is_small thumb large camera location stage
              /\ (large = "" \/ Str.endswith ".jpg" large = true)).
  { intros soup r [H | H].
    - apply big_row_source in H.
      destruct H as [tbl [thumb [large [_ [_ [-> [_ Hl]]]]]]].
      repeat eexists. exact Hl.
    - apply small_row_source in H.
      destruct H as [tbl [thumb [large [location [_ [_ [-> [_ Hl]]]]]]]].
      repeat eexists. exact Hl. }
  split.
  - intros soup r H. apply in_app_or in H.
    destruct (Hrow soup r H) as [s [t [l [c [lo [st [-> Hl]]]]]]].
    now exists l.
  - intros w rec H. apply main_record_source in H.
    destruct H as [path [species [soup [r [_ [-> H]]]]]].
    destruct (Hrow soup r H) as [s [t [l [c [lo [st [-> Hl]]]]]]].
    now exists l.
Qed.

Lemma large_filenames_empty_or_jpg_witness :
  (exists v, dict_get (nth 1 (parse_big_blocks Sample.gallery
                               ++ parse_small_ffn_tables Sample.gallery) [])
               "Large_File" = Some v
             /\ (v = "" \/ Str.endswith ".jpg" v = true))
  /\ (exists v, dict_get (nth 2 (main_records Sample.world) []) "Large_Filename"
                = Some v
                /\ (v = "" \/ Str.endswith ".jpg" v = true)).
Proof.
  destruct large_filenames_empty_or_jpg as [H1 H2]. split.
  - apply (H1 Sample.gallery). vm_compute. tauto.
  - apply (H2 Sample.world). vm_compute. tauto.
Defined.

(** X7. A stage label is empty or a text that names a stage: some stage
    keyword occurs in it (in any case), it has no digit and at most 120
    characters.  So is the [Sex_Age] of every record of a run. *)
Theorem stage_labels_name_a_stage :
  (forall start_tbl max_lookback_tables,
     find_stage_tag_near_table start_tbl max_lookback_tables = ""
     \/ stage_text (find_stage_tag_near_table start_tbl max_lookback_tables)
        = true)
  /\ (forall w rec,
        List.In rec (main_records w) ->
        exists v, dict_get rec "Sex_Age" = Some v
                  /\ (v = "" \/ stage_text v = true)).
Proof.
  split; [exact stage_label_is_stage_text|].
  intros w rec H. apply main_record_source in H.
  destruct H as [path [species [soup [r [_ [-> [H | H]]]]]]].
  - apply big_row_source in H.
    destruct H as [tbl [thumb [large [_ [_ [-> _]]]]]].
    exists (find_stage_tag_near_table tbl 3). split; [reflexivity|].
    apply stage_label_is_stage_text.
  - apply small_row_source in H.
    destruct H as [tbl [thumb [large [location [_ [_ [-> _]]]]]]].
    exists (find_stage_tag_near_table tbl 3). split; [reflexivity|].
    apply stage_label_is_stage_text.
Qed.

Lemma stage_labels_name_a_stage_witness :
  exists v, dict_get (nth 0 (main_records Sample.world) []) "Sex_Age" = Some v
            /\ (v = "" \/ stage_text v = true).
Proof.
  apply (proj2 stage_labels_name_a_stage Sample.world). vm_compute. tauto.
Defined.

(** X8. [parse_big_blocks] gives at most one row for each big image
    block of the page. *)
Theorem at_most_one_row_per_big_block (soup : node) :
  List.length (parse_big_blocks soup)
  <= List.length (filter (fun tbl => is_big_image_table (self tbl))
                    (find_all_located soup "table")).
Proof.
  unfold parse_big_blocks.
  induction (find_all_located soup "table") as [|tbl l IH]; simpl; [lia|].
  rewrite length_app.
  destruct (is_big_image_table (self tbl)); simpl; [|exact IH].
  destruct (extract_first_img_and_anchor (self tbl)) as [thumb large].
  destruct (falsy thumb); simpl; lia.
Qed.

(** ** Paths and names *)

Lemma after_last_no_sep (c : ascii) (l : list ascii) :
  ~ List.In c (Str.after_last c l).
Proof.
  unfold Str.after_last. rewrite <- in_rev.
  induction (rev l) as [|a r IH]; simpl; [tauto|].
  destruct (Ascii.eqb a c) eqn:Ha; simpl; [tauto|].
  intros [-> | H]; [now rewrite Ascii.eqb_refl in Ha | now apply IH].
Qed.

Lemma after_last_app (c : ascii) (a b : list ascii) :
  ~ List.In c b -> Str.after_last c (a ++ c :: b) = b.
Proof.
  intro Hb. unfold Str.after_last.
  rewrite rev_app_distr. simpl. rewrite <- app_assoc. simpl.
  rewrite <- (rev_involutive b) at 2. f_equal.
  assert (Hr : ~ List.In c (rev b)) by (now rewrite <- in_rev).
  induction (rev b) as [|x r IH]; simpl; [now rewrite Ascii.eqb_refl|].
  destruct (Ascii.eqb x c) eqn:Hx.
  - apply Ascii.eqb_eq in Hx. subst x. exfalso. apply Hr. now left.
  - f_equal. apply IH. intro H. apply Hr. now right.
Qed.

Lemma after_last_whole (c : ascii) (b : list ascii) :
  ~ List.In c b -> Str.after_last c b = b.
Proof.
  intro Hb. unfold Str.after_last.
  rewrite <- (rev_involutive b) at 2. f_equal.
  assert (Hr : ~ List.In c (rev b)) by (now rewrite <- in_rev).
  induction (rev b) as [|x r IH]; simpl; [reflexivity|].
  destruct (Ascii.eqb x c) eqn:Hx.
  - apply Ascii.eqb_eq in Hx. subst x. exfalso. apply Hr. now left.
  - f_equal. apply IH. intro H. apply Hr. now right.
Qed.

Lemma no_sep_not_absolute (b : string) :
  ~ List.In Path.sep (Str.chars b) -> Str.startswith "/" b = false.
Proof.
  intro Hb. unfold Str.startswith.
  destruct (Str.chars b) as [|c r]; [reflexivity|].
  change (Str.chars "/") with ["/"%char]. cbn [Str.starts].
  destruct (Ascii.eqb "/" c) eqn:Hc; [|reflexivity].
  apply Ascii.eqb_eq in Hc. subst c. exfalso. apply Hb. now left.
Qed.

Lemma basename_join (a b : string) :
  ~ List.In Path.sep (Str.chars b) ->
  Path.basename (Path.join a b) = b.
Proof.
  intro Hb. unfold Path.join.
  pose proof (no_sep_not_absolute b Hb) as Hs.
  rewrite Hs. unfold Path.basename.
  destruct (negb (Str.truthy a) || Str.endswith "/" a) eqn:Ha.
  - apply orb_true_iff in Ha. destruct Ha as [Ha | Ha].
    + destruct a; [|discriminate]. simpl.
      rewrite after_last_whole by assumption. apply of_chars_chars.
    + apply endswith_spec in Ha. destruct Ha as [stem ->].
      rewrite !chars_append. change (Str.chars "/") with [Path.sep].
      rewrite <- app_assoc. cbn [app].
      rewrite after_last_app by assumption. apply of_chars_chars.
  - rewrite !chars_append. change (Str.chars "/") with [Path.sep]. cbn [app].
    rewrite after_last_app by assumption. apply of_chars_chars.
Qed.

Lemma folder_name_no_sep (w : env) :
  ~ List.In Path.sep (Str.chars (get_current_folder_name w)).
Proof.
  unfold get_current_folder_name, Path.basename.
  destruct (Str.truthy _).
  - rewrite chars_of_chars. apply after_last_no_sep.
  - vm_compute. intuition discriminate.
Qed.



Lemma existsb_app {A : Type} (f : A -> bool) (a b : list A) :
  existsb f (a ++ b) = existsb f a || existsb f b.
Proof.
  induction a as [|x a IH]; simpl; [reflexivity|].
  now rewrite IH, orb_assoc.
Qed.

Lemma splitext_root_html (stem : string) :
  Path.splitext_root ("Fotos_" ++ stem ++ ".html") = ("Fotos_" ++ stem)%string.
Proof.
  unfold Path.splitext_root.
  replace (rev (Str.chars ("Fotos_" ++ stem ++ ".html")))
    with ("l" :: "m" :: "t" :: "h" :: "." :: rev (Str.chars ("Fotos_" ++ stem)))%char.
  - assert (Hroot : existsb (fun c => negb (Ascii.eqb c "."))
                      (rev (Str.chars ("Fotos_" ++ stem))) = true).
    { rewrite chars_append, rev_app_distr, existsb_app.
      replace (existsb (fun c => negb (Ascii.eqb c "."))
                 (rev (Str.chars "Fotos_")))
        with true by reflexivity.
      apply orb_true_r. }
    cbn [Path.split_at_dot Ascii.eqb Bool.eqb].
    rewrite Hroot, rev_involutive. apply of_chars_chars.
  - rewrite !chars_append, app_assoc, !rev_app_distr. reflexivity.
Qed.

(** X10. For a file [<dir>/Fotos_<name>.html] whose [<name>] holds no
    path separator, the species is [<name>], whatever dots or underscores it
    holds: [main] prints it in the "Processing" line and writes it into the
    [Slug] of every record of the file. *)
Theorem species_is_file_name_suffix (w : env) (dir name : string) :
  ~ List.In "/"%char (Str.chars name) ->
  let path := (dir ++ "/" ++ "Fotos_" ++ name ++ ".html")%string in
  process_file w path
  = (records_of_rows name (fst (parse_file w path)),
     ("Processing " ++ ("Fotos_" ++ name ++ ".html")
        ++ " (species: " ++ name ++ ") ...")%string
       :: snd (parse_file w path))
  /\ forall rec, List.In rec (fst (process_file w path)) ->
                 dict_get rec "Slug" = Some name.
Proof.
  intros Hname path.
  assert (Hbase : Path.basename path = ("Fotos_" ++ name ++ ".html")%string).
  { unfold path, Path.basename. rewrite chars_append.
    change (Str.chars ("/" ++ "Fotos_" ++ name ++ ".html"))
      with (Path.sep :: Str.chars ("Fotos_" ++ name ++ ".html")).
    rewrite after_last_app; [apply of_chars_chars|].
    rewrite !chars_append. intro H.
    apply in_app_or in H. destruct H as [H | H];
      [vm_compute in H; intuition discriminate|].
    apply in_app_or in H. destruct H as [H | H]; [now apply Hname|].
    vm_compute in H. intuition discriminate. }
  assert (Hproc :
    process_file w path
    = (records_of_rows name (fst (parse_file w path)),
       ("Processing " ++ ("Fotos_" ++ name ++ ".html")
        ++ " (species: " ++ name ++ ") ...")%string
         :: snd (parse_file w path))).
  { unfold process_file. rewrite Hbase, splitext_root_html.
    assert (Hs : Str.startswith "Fotos_" ("Fotos_" ++ name) = true).
    { unfold Str.startswith. apply starts_spec. exists (Str.chars name).
      apply chars_append. }
    rewrite Hs. cbn [negb].
    replace (Str.after_first (Str.chars "Fotos_") (Str.chars ("Fotos_" ++ name)))
      with (Some (Str.chars name)) by reflexivity.
    rewrite of_chars_chars.
    destruct (parse_file w path) as [rows out]. reflexivity. }
  split; [exact Hproc|].
  intros rec H. rewrite Hproc in H. cbn [fst] in H.
  destruct (records_of_rows_jpg _ _ _ H) as [r [v [_ [-> _]]]]. reflexivity.
Qed.

Lemma species_is_file_name_suffix_witness :
  dict_get (nth 0 (fst (process_file Sample.world Sample.good_file)) []) "Slug"
  = Some "Grus_grus".
Proof.
  destruct (species_is_file_name_suffix Sample.world "/home/u/Gruiformes"
              "Grus_grus") as [_ H].
  - vm_compute. intuition discriminate.
  - apply H. vm_compute. tauto.
Defined.

(** ** Records of a run *)

(** X11. Every record of a run has exactly the fifteen columns of the
    sheet, in their order, and its seven placeholder columns are empty. *)
Theorem records_have_all_columns (w : env) (rec : dict) :
  List.In rec (main_records w) ->
  map fst rec = COLUMNS
  /\ forall col, List.In col PLACEHOLDERS -> dict_get rec col = Some "".
Proof.
  intro H. apply main_record_source in H.
  destruct H as [path [species [soup [r [_ [-> _]]]]]].
  split; [reflexivity|].
  intros col Hcol. simpl in Hcol.
  repeat (destruct Hcol as [<- | Hcol]; [reflexivity|]). destruct Hcol.
Qed.

Lemma records_have_all_columns_witness :
  map fst (nth 1 (main_records Sample.world) []) = COLUMNS
  /\ dict_get (nth 1 (main_records Sample.world) []) "Cover" = Some "".
Proof.
  destruct (records_have_all_columns Sample.world
              (nth 1 (main_records Sample.world) [])) as [H1 H2].
  - vm_compute. tauto.
  - split; [exact H1|]. apply H2. vm_compute. tauto.
Defined.


Lemma process_files_collects (w : env) (paths : list string) (rec : dict) :
  List.In rec (fst (process_files w paths)) <->
  exists path, List.In path paths /\ List.In rec (fst (process_file w path)).
Proof.
  split; [apply process_files_records|].
  intros [path [Hin Hrec]]. induction paths as [|p paths IH]; [destruct Hin|].
  simpl. destruct (process_file w p) as [recs out] eqn:Hp.
  destruct (process_files w paths) as [recs' out']. simpl in *.
  apply in_or_app. destruct Hin as [-> | Hin].
  - left. now rewrite Hp in Hrec.
  - right. now apply IH.
Qed.

(** X13. The records of a run are the records of its input files: sorting
    the files neither loses nor invents one. *)
Theorem records_come_from_input_files (w : env) (rec : dict) :
  List.In rec (main_records w) <->
  exists path,
    List.In path (input_files w) /\ List.In rec (fst (process_file w path)).
Proof.
  unfold main_records. rewrite process_files_collects. split.
  - intros [path [Hin Hrec]]. exists path. split; [|assumption].
    exact (Permutation_in _ (sorted_permutation _) Hin).
  - intros [path [Hin Hrec]]. exists path. split; [|assumption].
    exact (Permutation_in _ (Permutation_sym (sorted_permutation _)) Hin).
Qed.

(** ** Rows and the attached status *)

Lemma dict_get_set (d : dict) (k v key : string) :
  dict_get (dict_set d k v) key
  = if String.eqb key k then Some v else dict_get d key.
Proof.
  unfold dict_get. induction d as [|[k0 x] d IH]; simpl.
  - now rewrite String.eqb_sym.
  - destruct (String.eqb k0 k) eqn:Hk; simpl.
    + apply String.eqb_eq in Hk. subst k0.
      rewrite (String.eqb_sym key k). now destruct (String.eqb k key).
    + destruct (String.eqb k0 key) eqn:Hkey.
      * apply String.eqb_eq in Hkey. subst key. now rewrite Hk.
      * exact IH.
Qed.

(** X14. [parse_file] keeps every row of the two parsers, the big blocks
    first, and changes nothing in a row but its [Threat_Status]: looking up
    any other key gives what the parser wrote. *)
Theorem attaching_status_keeps_rows (soup : node) :
  let parsed := parse_big_blocks soup ++ parse_small_ffn_tables soup in
  List.length (rows_of_soup soup) = List.length parsed
  /\ forall i r0,
       nth_error parsed i = Some r0 ->
       exists r,
         nth_error (rows_of_soup soup) i = Some r
         /\ forall key,
              dict_get r key
              = if String.eqb key "Threat_Status"
                then Some (find_threat_status soup)
                else dict_get r0 key.
Proof.
  intro parsed. unfold rows_of_soup. fold parsed. split; [apply length_map|].
  intros i r0 H. exists (dict_set r0 "Threat_Status" (find_threat_status soup)).
  split; [|intro key; apply dict_get_set].
  rewrite nth_error_map, H. reflexivity.
Qed.

Lemma attaching_status_keeps_rows_witness :
  exists r,
    nth_error (rows_of_soup Sample.gallery) 0 = Some r
    /\ dict_get r "Camera_Equipment" = Some "Canon 7D".
Proof.
  destruct (proj2 (attaching_status_keeps_rows Sample.gallery) 0
              (row "" "t1.jpg" "big1.jpg" "Canon 7D" "Laguna 2010" "Adult male"))
    as [r [Hn Hk]]; [reflexivity|].
  exists r. split; [exact Hn|]. rewrite (Hk "Camera_Equipment"). reflexivity.
Defined.

(** ** Status and the "x" marker *)

Lemma unmarked_no_status (table : node) :
  unmarked table -> _find_status_in_table table = "".
Proof.
  intro H. unfold _find_status_in_table.
  destruct (is_tag "table" table); [|reflexivity]. cbn [negb].
  assert (Hrows : forall trs,
            (forall tr, List.In tr trs -> List.In tr (find_all table "tr" any)) ->
            first_some status_in_row trs = None).
  { induction trs as [|tr trs IH]; intro Hsub; [reflexivity|]. simpl.
    assert (Hrow : status_in_row tr = None).
    { unfold status_in_row.
      destruct (find_all tr "td" any) as [|td tds] eqn:Htd; [reflexivity|].
      assert (Hm : existsb is_marker (td :: tds) = false).
      { apply not_true_is_false. intro He. apply existsb_exists in He.
        destruct He as [x [Hx Hmx]].
        rewrite (H tr x) in Hmx; [discriminate | apply Hsub; now left |].
        now rewrite Htd. }
      now rewrite Hm. }
    rewrite Hrow. apply IH. intros t Ht. apply Hsub. now right. }
  now rewrite Hrows.
Qed.

(** X15. A status is read only from a row with an "x" cell: a table none
    of whose cells is an "x" or a multiplication sign gives the empty
    status, and so does a page whose tables are all such and none of which
    holds the phrase "globally threatened species". *)
Theorem status_needs_marker :
  (forall table, unmarked table -> _find_status_in_table table = "")
  /\ (forall soup,
        (forall tbl,
           List.In tbl (find_all_located soup "table") ->
           unmarked (self tbl)
           /\ Str.contains "globally threatened species"
                (Str.lower (compact_text (get_text (self tbl)))) = false) ->
        find_threat_status soup = "").
Proof.
  split; [exact unmarked_no_status|].
  intros soup H. unfold find_threat_status.
  induction (find_all_located soup "table") as [|tbl l IH]; [reflexivity|].
  destruct (H tbl (or_introl eq_refl)) as [Hu Hp].
  cbn [first_some]. unfold status_near_header at 1. rewrite Hp.
  rewrite (unmarked_no_status _ Hu). cbn [returned Str.truthy].
  apply IH. intros t Ht. apply H. now right.
Qed.

Lemma status_needs_marker_witness :
  _find_status_in_table Sample.plain = ""
  /\ find_threat_status (Sample.page [Sample.plain]) = "".
Proof.
  assert (Hplain : unmarked Sample.plain).
  { intros tr td Htr Htd. vm_compute in Htr. destruct Htr as [<- | []].
    vm_compute in Htd. destruct Htd as [<- | []]. reflexivity. }
  destruct status_needs_marker as [H1 H2]. split.
  - apply H1. exact Hplain.
  - apply H2. intros tbl Hin. vm_compute in Hin. destruct Hin as [<- | []].
    split; [exact Hplain | reflexivity].
Defined.


Lemma compact_text_normal_form_witness :
  compact_text (compact_text "  Adult
   male ") = "Adult male"
  /\ " "%char = " "%char.
Proof.
  destruct (compact_text_normal_form "  Adult
   male ") as [H1 [_ [H3 _]]].
  split.
  - rewrite H1. vm_compute. reflexivity.
  - apply (H3 " "%char); [vm_compute; tauto | reflexivity].
Defined.

(** ** The stage label, in full *)

Lemma stage_lookback_spec (sibs : list node) (count max_lookback_tables : Z) :
  stage_lookback sibs count max_lookback_tables
  = match List.find _looks_like_stage_table
            (firstn (Z.to_nat (Z.max 1 (max_lookback_tables - count)))
               (filter (is_tag "table") (until_big sibs))) with
    | Some t => text_of t
    | None => ""
    end.
Proof.
  revert count. induction sibs as [|sib rest IH]; intro count;
    cbn [stage_lookback until_big].
  - now rewrite firstn_nil.
  - destruct (is_tag "table" sib) eqn:Ht; cbn [negb].
    + destruct (is_big_image_table sib) eqn:Hbig.
      * now rewrite firstn_nil.
      * cbn [filter]. rewrite Ht.
        destruct (Z.to_nat (Z.max 1 (max_lookback_tables - count))) as [|k] eqn:Hk;
          [lia|].
        cbn [firstn List.find].
        destruct (_looks_like_stage_table sib); [reflexivity|].
        destruct (Z.leb_spec max_lookback_tables (count + 1)) as [Hle|Hgt].
        -- assert (k = 0) as -> by lia. reflexivity.
        -- rewrite IH. replace (Z.to_nat (Z.max 1 (max_lookback_tables - (count + 1))))
             with k by lia. reflexivity.
    + assert (Hbig : is_big_image_table sib = false)
        by (unfold is_big_image_table; now rewrite Ht).
      rewrite Hbig. cbn [filter]. rewrite Ht. apply IH.
Qed.

(** X18. The stage label of a table is the text of the nearest table that
    looks like a stage header among the [max_lookback_tables] nearest
    previous sibling tables (one, when the limit is below 1) that come
    before a big image block, and empty when there is none: a stage header
    within reach is always found, and the nearest one wins. *)
Theorem find_stage_tag_near_table_spec (start_tbl : loc)
    (max_lookback_tables : Z) :
  find_stage_tag_near_table start_tbl max_lookback_tables
  = match List.find _looks_like_stage_table
            (firstn (Z.to_nat (Z.max 1 max_lookback_tables))
               (filter (is_tag "table") (until_big (before start_tbl)))) with
    | Some t => text_of t
    | None => ""
    end.
Proof.
  unfold find_stage_tag_near_table. rewrite stage_lookback_spec.
  now replace (max_lookback_tables - 0)%Z with max_lookback_tables by lia.
Qed.

(** * Runs with their exceptions *)

Lemma process_files_run_returns (h : host) (w : env) (paths : list string)
    (recs : list dict) (out : list string) :
  process_files_run h w paths = (recs, out, None) ->
  process_files w paths = (recs, out).
Proof.
  revert recs out. induction paths as [|path rest IH]; intros recs out H;
    simpl in *.
  - now injection H as <- <-.
  - destruct (process_file w path) as [r1 o1].
    destruct (if Str.startswith "Fotos_" _ then parse_file_raises h w path else None);
      [discriminate|].
    destruct (process_files_run h w rest) as [[r2 o2] e].
    injection H as <- <- ->. now rewrite (IH r2 o2 eq_refl).
Qed.

Lemma cut_keeps_truthy (value : string) :
  Str.truthy value = true -> Str.truthy (cut value) = true.
Proof. destruct value as [|c v]; [discriminate | reflexivity]. Qed.

Lemma take_all (n : Z) (l : list ascii) :
  (Z.of_nat (List.length l) <= n)%Z -> take n l = l.
Proof.
  revert n. induction l as [|c r IH]; intros n H; simpl in *; [reflexivity|].
  destruct (Z.ltb_spec 0 n); [|lia]. f_equal. apply IH. lia.
Qed.

(** A text of at most 32767 characters is kept whole. *)
Lemma cut_short (value : string) :
  (Z.of_nat (String.length value) <= 32767)%Z -> cut value = value.
Proof.
  intro H. unfold cut. rewrite take_all; [apply of_chars_chars|].
  assert (Hlen : forall s, List.length (Str.chars s) = String.length s).
  { induction s as [|c s IH]; simpl; [reflexivity | now rewrite IH]. }
  now rewrite Hlen.
Qed.

(** A cell of the saved sheet from row 3 and column B on. *)
Lemma saved_file_cell (records : list dict) (i j : nat) :
  insert_rows 1 (insert_cols 1 (to_excel_saved COLUMNS records)) (3 + i) (2 + j)
  = match nth_error records i, nth_error COLUMNS j with
    | Some r, Some c => saved_value (cut (dict_get_or_empty r c))
    | _, _ => None
    end.
Proof.
  unfold insert_rows, insert_cols, to_excel_saved. simpl.
  replace (i - 0) with i by lia. replace (j - 0) with j by lia.
  destruct (nth_error records i); [|reflexivity].
  destruct (nth_error COLUMNS j); reflexivity.
Qed.

Lemma saved_file_header (records : list dict) (j : nat) :
  insert_rows 1 (insert_cols 1 (to_excel_saved COLUMNS records)) 2 (2 + j)
  = nth_error COLUMNS j.
Proof.
  unfold insert_rows, insert_cols, to_excel_saved. simpl.
  replace (j - 0) with j by lia.
  do 15 (destruct j as [|j]; [vm_compute; reflexivity|]).
  simpl. now destruct j.
Qed.

(** A run that returns has printed what [main] gives, and has saved the
    sheet of [main] as a file holds it. *)
Lemma main_run_returned (h : host) (w : env) (o : outcome) :
  main_run h w = Returned o ->
  exit_code o = 0%Z
  /\ printed o = printed (main w)
  /\ written o
     = match main_records w with
       | [] => []
       | _ :: _ =>
           [ (out_path w,
              insert_rows 1
                (insert_cols 1 (to_excel_saved COLUMNS (main_records w)))) ]
       end.
Proof.
  unfold main_run, main, main_records, out_path.
  destruct (input_files w) as [|f files].
  - intros [= <-]. simpl. repeat split.
  - destruct (process_files_run h w (Str.sorted (f :: files)))
      as [[recs out] [e|]] eqn:Hrun; [discriminate|].
    rewrite (process_files_run_returns _ _ _ _ _ Hrun). cbn [fst].
    destruct recs as [|r rs]; [intros [= <-]; simpl; repeat split|].
    destruct (writer h _); [| discriminate |];
      destruct (to_excel_raises COLUMNS (r :: rs)); try discriminate;
      intros [= <-]; simpl; repeat split.
Qed.

Lemma main_record_thumbnail (w : env) (rec : dict) :
  List.In rec (main_records w) ->
  exists v, dict_get rec "Thumbnail_Filename" = Some v
            /\ Str.endswith ".jpg" v = true.
Proof.
  intro H. apply process_files_records in H. destruct H as [path [_ H]].
  apply process_file_records in H. destruct H as [species H].
  destruct (records_of_rows_jpg _ _ _ H) as [r [v [_ [_ [_ [Hv He]]]]]].
  now exists v.
Qed.

Lemma jpg_name_truthy (v : string) :
  Str.endswith ".jpg" v = true -> Str.truthy v = true.
Proof. destruct v; [discriminate | reflexivity]. Qed.

(** The thumbnail cell of a record is filled, and of no other row. *)
Lemma thumbnail_cell_filled (w : env) (i : nat) :
  i < List.length (main_records w) <->
  insert_rows 1 (insert_cols 1 (to_excel_saved COLUMNS (main_records w)))
    (3 + i) 7 <> None.
Proof.
  change 7 with (2 + 5). rewrite saved_file_cell. cbn [nth_error COLUMNS].
  split.
  - intro Hi. destruct (nth_error (main_records w) i) as [rec|] eqn:Hn;
      [|apply nth_error_None in Hn; lia].
    destruct (main_record_thumbnail w rec (nth_error_In _ _ Hn)) as [v [Hv He]].
    unfold dict_get_or_empty. rewrite Hv. unfold saved_value.
    rewrite (cut_keeps_truthy _ (jpg_name_truthy _ He)). discriminate.
  - intro H. apply nth_error_Some. intro Hn. rewrite Hn in H. now apply H.
Qed.



(** A run ends in an exception on a page with a control character in a
    field, and on a contact sheet with a cell that spans more than
    [sys.maxsize] columns; nothing is then reported as written. *)
Example runs_that_raise :
  main_run Sample.machine (Sample.world_with Sample.smudged [Sample.good_file])
  = Raised IllegalCharacterError
      [ "Found 1 file(s) to process.";
        "Processing Fotos_Grus_grus.html (species: Grus_grus) ..." ]
  /\ main_run Sample.machine
       (Sample.world_with (Sample.page [Sample.wide_sheet]) [Sample.good_file])
     = Raised OverflowError
         [ "Found 1 file(s) to process.";
           "Processing Fotos_Grus_grus.html (species: Grus_grus) ..." ].
Proof. split; lazy; reflexivity. Qed.

Lemma expanded_texts_raises_kind (h : host) (tds : list node) (have : Z)
    (e : exception) :
  expanded_texts_raises h tds have = Some e ->
  e = OverflowError \/ e = MemoryError.
Proof.
  revert have. induction tds as [|td tds IH]; intro have; simpl; [discriminate|].
  unfold extend_raises.
  destruct (sys_maxsize <? Z.max 1 (colspan_of td))%Z; [intros [= <-]; now left|].
  destruct (capacity h <? have + Z.max 1 (colspan_of td))%Z;
    [intros [= <-]; now right | apply IH].
Qed.

Lemma process_files_run_kind (h : host) (w : env) (paths : list string)
    (recs : list dict) (out : list string) (e : exception) :
  process_files_run h w paths = (recs, out, Some e) ->
  e = OverflowError \/ e = MemoryError.
Proof.
  revert recs out. induction paths as [|path rest IH]; intros recs out;
    simpl; [discriminate|].
  destruct (process_file w path) as [r1 o1].
  destruct (if Str.startswith "Fotos_" _ then parse_file_raises h w path else None)
    as [e'|] eqn:Hr.
  - intros [= _ _ <-].
    destruct (Str.startswith "Fotos_" _); [|discriminate].
    unfold parse_file_raises in Hr.
    destruct (read_html_file w path) as [[html|] o]; [|discriminate].
    unfold parse_small_ffn_tables_raises in Hr.
    apply first_some_source in Hr. destruct Hr as [tbl [_ Hr]].
    destruct (find_all (self tbl) "td" has_ffn_background); [discriminate|].
    apply first_some_source in Hr. destruct Hr as [tr [_ Hr]].
    now apply expanded_texts_raises_kind in Hr.
  - destruct (process_files_run h w rest) as [[r2 o2] e2] eqn:Hrest.
    intros [= _ _ ->]. now apply (IH r2 o2).
Qed.

(** X12. A run that returns, returns 0, has printed what [main] gives and
    has saved at most one workbook, none exactly when it has no record;
    a run without files returns.  A run that raises has files, has printed
    their number first, and raises [OverflowError] or [MemoryError] from
    the parser, or else has records and raises from the workbook. *)
Theorem run_returns_zero_or_raises (h : host) (w : env) :
  (forall o,
     main_run h w = Returned o ->
     exit_code o = 0%Z
     /\ printed o = printed (main w) /\ printed o <> []
     /\ List.length (written o) <= 1
     /\ (written o = [] <-> main_records w = []))
  /\ (input_files w = [] -> main_run h w = Returned (main w))
  /\ (forall e out,
        main_run h w = Raised e out ->
        input_files w <> []
        /\ hd_error out
           = Some ("Found " ++ Str.of_nat (List.length (input_files w))
                     ++ " file(s) to process.")%string
        /\ (e = OverflowError \/ e = MemoryError
            \/ (main_records w <> []
                /\ (e = OSError \/ e = ValueError \/ e = IllegalCharacterError)))).
Proof.
  split; [|split].
  - intros o Hrun. destruct (main_run_returned _ _ _ Hrun) as [H0 [Hp Hw]].
    split; [exact H0|]. split; [exact Hp|]. split.
    + rewrite Hp. unfold main. destruct (input_files w); [discriminate|].
      destruct (process_files w _) as [[|r rs] out]; discriminate.
    + rewrite Hw. destruct (main_records w); simpl; split;
        try lia; split; (reflexivity || discriminate).
  - intro Hf. unfold main_run, main. now rewrite Hf.
  - intros e out. unfold main_run, main_records.
    destruct (input_files w) as [|f files]; [discriminate|].
    destruct (process_files_run h w (Str.sorted (f :: files)))
      as [[recs lines] [e'|]] eqn:Hrun.
    + intros [= <- <-]. split; [discriminate|]. split; [reflexivity|].
      apply process_files_run_kind in Hrun. tauto.
    + rewrite (process_files_run_returns _ _ _ _ _ Hrun). cbn [fst].
      destruct recs as [|r rs]; [discriminate|].
      assert (Hne : r :: rs <> []) by discriminate.
      destruct (writer h _).
      * destruct (to_excel_raises COLUMNS (r :: rs)) as [e'|] eqn:He;
          [|discriminate].
        intros [= <- <-]. split; [discriminate|]. split; [reflexivity|].
        right. right. split; [exact Hne|]. unfold to_excel_raises in He.
        destruct (max_rows <? _)%Z; [injection He as <-; tauto|].
        destruct (existsb refused COLUMNS || _); [injection He as <-; tauto|].
        discriminate.
      * intros [= <- <-]. split; [discriminate|]. split; [reflexivity|]. tauto.
      * destruct (to_excel_raises COLUMNS (r :: rs)) as [e'|] eqn:He.
        -- intros [= <- <-]. split; [discriminate|]. split; [reflexivity|].
           right. right. split; [exact Hne|]. unfold to_excel_raises in He.
           destruct (max_rows <? _)%Z; [injection He as <-; tauto|].
           destruct (existsb refused COLUMNS || _); [injection He as <-; tauto|].
           discriminate.
        -- intros [= <- <-]. split; [discriminate|]. split; [reflexivity|]. tauto.
Qed.

Lemma run_returns_zero_or_raises_witness :
  main_run Sample.machine (Sample.world_with Sample.gallery [])
  = Returned (main (Sample.world_with Sample.gallery []))
  /\ input_files (Sample.world_with Sample.smudged [Sample.good_file]) <> [].
Proof.
  split.
  - apply (proj1 (proj2 (run_returns_zero_or_raises Sample.machine
                           (Sample.world_with Sample.gallery [])))).
    reflexivity.
  - apply (proj2 (proj2 (run_returns_zero_or_raises Sample.machine
                           (Sample.world_with Sample.smudged [Sample.good_file])))
             IllegalCharacterError
             [ "Found 1 file(s) to process.";
               "Processing Fotos_Grus_grus.html (species: Grus_grus) ..." ]).
    lazy. reflexivity.
Defined.

(** X17. A run that returns with files has printed the number of files
    first.  With records it has printed last the number of records and the
    path of the workbook, and that number is the number of data rows of the
    saved sheet: row [3 + i] holds a thumbnail exactly when [i] is below
    it. *)
Theorem report_matches_workbook (h : host) (w : env) (o : outcome) :
  main_run h w = Returned o ->
  (input_files w <> [] ->
   hd_error (printed o)
   = Some ("Found " ++ Str.of_nat (List.length (input_files w))
             ++ " file(s) to process.")%string)
  /\ (main_records w <> [] ->
      exists out sheet,
        printed o
        = out ++ [ ("Wrote " ++ Str.of_nat (List.length (main_records w))
                      ++ " rows to " ++ out_path w)%string;
                   "Excel structure: Row 1 (empty), Row 2 (headers), Row 3+ (data)" ]
        /\ written o = [(out_path w, sheet)]
        /\ forall i, i < List.length (main_records w) <-> sheet (3 + i) 7 <> None).
Proof.
  intro Hrun. destruct (main_run_returned _ _ _ Hrun) as [_ [Hp Hw]]. split.
  - intro Hf. rewrite Hp. unfold main.
    destruct (input_files w) as [|f fs]; [contradiction|].
    destruct (process_files w _) as [[|r rs] out]; reflexivity.
  - intro Hr. rewrite Hp, Hw.
    assert (Hprinted : exists out,
              printed (main w)
              = out ++ [ ("Wrote " ++ Str.of_nat (List.length (main_records w))
                            ++ " rows to " ++ out_path w)%string;
                         "Excel structure: Row 1 (empty), Row 2 (headers), Row 3+ (data)" ]).
    { unfold main, main_records, out_path in *.
      destruct (input_files w) as [|f fs]; [now contradiction Hr|].
      destruct (process_files w (Str.sorted (f :: fs))) as [records out].
      cbn [fst] in *. destruct records as [|r rs]; [contradiction|].
      eexists. reflexivity. }
    destruct Hprinted as [out Hout].
    exists out,
      (insert_rows 1 (insert_cols 1 (to_excel_saved COLUMNS (main_records w)))).
    split; [exact Hout|]. split; [|intro i; apply thumbnail_cell_filled].
    destruct (main_records w); [contradiction | reflexivity].
Qed.

Lemma report_matches_workbook_witness :
  exists o,
    main_run Sample.machine Sample.world = Returned o
    /\ hd_error (printed o) = Some "Found 2 file(s) to process."
    /\ exists out sheet,
         printed o
         = out ++ [ "Wrote 3 rows to /home/u/Gruiformes/Gruiformes_Image_Listing.xlsx";
                    "Excel structure: Row 1 (empty), Row 2 (headers), Row 3+ (data)" ]
         /\ written o = [(out_path Sample.world, sheet)]
         /\ (2 < 3 <-> sheet (3 + 2) 7 <> None).
Proof.
  destruct (main_run Sample.machine Sample.world) as [o|e out] eqn:Hrun;
    [|vm_compute in Hrun; discriminate].
  destruct (report_matches_workbook Sample.machine Sample.world o Hrun) as [H1 H2].
  exists o. split; [reflexivity|]. split.
  - apply H1. vm_compute. discriminate.
  - destruct H2 as [out [sheet [Hp [Hw Hi]]]]; [vm_compute; discriminate|].
    exists out, sheet. split; [exact Hp|]. split; [exact Hw|]. apply (Hi 2).
Defined.
